(** * Posture Analysis Service: job registry, orchestrator runs and result
    translation of [posture-analysis-service/misc/main.py]

    The development embeds the request handlers, the two background runs
    ([perform_url_analysis], [perform_file_analysis]), [download_video] and
    [convert_to_api_format] as Rocq functions over an explicit world (the
    global [analysis_status] dictionary and the set of existing files), and
    proves properties of the job life cycle about them. *)

From Stdlib Require Import ZArith Ascii String List.
From stdpp Require Import gmap strings list.

Local Open Scope Z_scope.
#[local] Set Warnings "-register-all".

(** ** Python strings *)

(** [sub in s] on two [str] values. *)
Fixpoint str_in (sub s : string) : bool :=
  Stdlib.Strings.String.prefix sub s ||
  match s with
  | EmptyString => false
  | String _ s' => str_in sub s'
  end.

(** [repr(s)] for a string of printable characters without quote or
    backslash, which is what every dictionary key looked up by the service
    is: the text between single quotes. *)
Definition py_repr (s : string) : string := "'" +:+ s +:+ "'".

(** ** Python values handed over by the analyzer *)

(** A double is carried around by the service, never computed with: it is
    identified by its 64-bit pattern. *)
Inductive float64 := Float64 (bits : Z).

(** The analyzer returns a [Dict[str, Any]]: a tree of JSON-like values.
    A dictionary keeps its items in insertion order, which is the order
    [.items()] iterates in; a lookup finds the first binding of a key. *)
Inductive PyVal :=
| PyNone
| PyBool (b : bool)
| PyInt (n : Z)
| PyFloat (x : float64)
| PyStr (s : string)
| PyList (l : list PyVal)
| PyDict (items : list (string * PyVal)).

Definition type_name (v : PyVal) : string :=
  match v with
  | PyNone => "NoneType"
  | PyBool _ => "bool"
  | PyInt _ => "int"
  | PyFloat _ => "float"
  | PyStr _ => "str"
  | PyList _ => "list"
  | PyDict _ => "dict"
  end.

(** ** Exceptions *)

(** The exceptions a run can meet. All of them derive from [Exception], so
    an [except Exception] clause catches each of them. [ForeignError] is an
    exception of a class the service does not know, raised by an external
    collaborator (the analyzer, the HTTP client, the operating system). *)
Inductive PyExc :=
| KeyError (key : string)
| TypeError (msg : string)
| AttributeError (msg : string)
| ValidationError (msg : string)
| FileNotFoundError (path : string)
| Exception (msg : string)
| ForeignError (cls msg : string).


(** [str(e)] *)
Definition str_exc (e : PyExc) : string :=
  match e with
  | KeyError key => py_repr key
  | TypeError msg => msg
  | AttributeError msg => msg
  | ValidationError msg => msg
  | FileNotFoundError path =>
      "[Errno 2] No such file or directory: " +:+ py_repr path
  | Exception msg => msg
  | ForeignError _ msg => msg
  end.

(** [raise HTTPException(status_code=..., detail=...)] at the API boundary. *)
Record HTTPException := {
  status_code : Z;
  detail : string
}.

(** ** Data model (the pydantic classes of the service) *)

Module AnalysisRequest.
Record t := {
  project_id : string;
  video_url : string;
  callback_url : option string
}.
End AnalysisRequest.

Module DirectAnalysisRequest.
Record t := {
  project_id : string;
  video_path : string
}.
End DirectAnalysisRequest.

Module ActionPeriod.
Record t := {
  start_frame : Z;
  end_frame : Z;
  duration_frames : Z;
  duration_seconds : float64
}.
End ActionPeriod.

Module ActionSummary.
Record t := {
  total_duration_seconds : float64;
  occurrence_count : Z
}.
End ActionSummary.

Module DetectedAction.
Record t := {
  action_name : string;
  periods : list ActionPeriod.t;
  summary : ActionSummary.t
}.
End DetectedAction.

Module PostureEventResponse.
Record t := {
  project_id : string;
  total_bad_postures : Z;
  total_duration_seconds : float64;
  detected_actions : list DetectedAction.t
}.
End PostureEventResponse.

Module AnalysisStatus.
Record t := {
  project_id : string;
  status : string;
  progress : Z;
  message : option string;
  result : option PostureEventResponse.t
}.

(** Attribute assignment on an instance (pydantic does not validate on
    assignment unless configured to, and the class is not). *)
Inductive field :=
| Status (s : string)
| Progress (n : Z)
| Message (m : string)
| Result (r : PostureEventResponse.t).

Definition setattr (st : t) (f : field) : t :=
  match f with
  | Status s =>
      {| project_id := project_id st; status := s; progress := progress st;
         message := message st; result := result st |}
  | Progress n =>
      {| project_id := project_id st; status := status st; progress := n;
         message := message st; result := result st |}
  | Message m =>
      {| project_id := project_id st; status := status st;
         progress := progress st; message := Some m; result := result st |}
  | Result r =>
      {| project_id := project_id st; status := status st;
         progress := progress st; message := message st; result := Some r |}
  end.
End AnalysisStatus.

(** ** Raising and propagating exceptions in pure code *)

#[export] Instance pyexc_ret : MRet (sum PyExc) := fun _ x => inr x.
#[export] Instance pyexc_bind : MBind (sum PyExc) := fun _ _ f x =>
  match x with
  | inl e => inl e
  | inr a => f a
  end.

(** ** Operations on analyzer values *)

Fixpoint assoc (key : string) (items : list (string * PyVal)) : option PyVal :=
  match items with
  | [] => None
  | (k, v) :: rest => if String.eqb k key then Some v else assoc key rest
  end.

(** [v[key]] for a string [key]. (The wording of interpreter messages is
    that of CPython 3.11; nothing below depends on it.) *)
Definition subscript (v : PyVal) (key : string) : PyExc + PyVal :=
  match v with
  | PyDict items =>
      match assoc key items with
      | Some x => inr x
      | None => inl (KeyError key)
      end
  | PyList _ => inl (TypeError "list indices must be integers or slices, not str")
  | PyStr _ => inl (TypeError "string indices must be integers, not 'str'")
  | _ => inl (TypeError (py_repr (type_name v) +:+ " object is not subscriptable"))
  end.

(** [v.items()] *)
Definition dict_items (v : PyVal) : PyExc + list (string * PyVal) :=
  match v with
  | PyDict items => inr items
  | _ => inl (AttributeError
                (py_repr (type_name v) +:+ " object has no attribute 'items'"))
  end.

Fixpoint chars (s : string) : list PyVal :=
  match s with
  | EmptyString => []
  | String c s' => PyStr (String c EmptyString) :: chars s'
  end.

(** The elements [for x in v] goes through. *)
Definition iterate (v : PyVal) : PyExc + list PyVal :=
  match v with
  | PyList l => inr l
  | PyDict items => inr (map (fun kv => PyStr (fst kv)) items)
  | PyStr s => inr (chars s)
  | _ => inl (TypeError (py_repr (type_name v) +:+ " object is not iterable"))
  end.

(** ** The environment of the service *)

(** [httpx.Response], as far as [download_video] looks at it. *)
Module Response.
Record t := {
  raise_for_status : option PyExc;
  content_type : string  (* [headers.get('content-type', '')] *)
}.
End Response.

(** What the service imports and does not define: the analyzer module, the
    [os] and [uuid] modules, the HTTP client, and pydantic's coercion of a
    field value that is not already of the field's type. *)
Record Env := {
  ANALYZER_AVAILABLE : bool;
  getcwd : string;
  isabs : string -> bool;
  join : string -> string -> string;
  analyze_video_file : string -> PyExc + PyVal;
  client_get : string -> PyExc + Response.t;
  uuid4_hex : string;
  isalnum : ascii -> bool;
  open_fault : string -> option PyExc;
  unlink_fault : string -> option PyExc;
  lax_int : PyVal -> option Z;
  lax_float : PyVal -> option float64;
  lax_str : PyVal -> option string;
  validation_text : string -> list (string * PyVal) -> string
}.

Definition TEMP_DIR (E : Env) : string := join E (getcwd E) "temp".
Definition UPLOAD_DIR (E : Env) : string := join E (getcwd E) "uploads".

(** [posixpath.isabs] and [posixpath.join], for an environment on a POSIX
    system. *)
Definition posix_isabs (p : string) : bool := Stdlib.Strings.String.prefix "/" p.

Fixpoint endswith_sep (p : string) : bool :=
  match p with
  | EmptyString => false
  | String c EmptyString => Ascii.eqb c "/"
  | String _ p' => endswith_sep p'
  end.

Definition posix_join (a b : string) : string :=
  if Stdlib.Strings.String.prefix "/" b then b
  else if String.eqb a "" || endswith_sep a then a +:+ b
  else a +:+ "/" +:+ b.

(** ** Validation by the pydantic constructors *)

Definition validate_int (E : Env) (v : PyVal) : option Z :=
  match v with
  | PyInt n => Some n
  | _ => lax_int E v
  end.

Definition validate_float (E : Env) (v : PyVal) : option float64 :=
  match v with
  | PyFloat x => Some x
  | _ => lax_float E v
  end.

Definition validate_str (E : Env) (v : PyVal) : option string :=
  match v with
  | PyStr s => Some s
  | _ => lax_str E v
  end.

(** [ActionPeriod(start_frame=..., end_frame=..., duration_frames=...,
    duration_seconds=...)] *)
Definition ActionPeriod_init (E : Env)
    (start_frame end_frame duration_frames duration_seconds : PyVal)
    : PyExc + ActionPeriod.t :=
  match validate_int E start_frame, validate_int E end_frame,
        validate_int E duration_frames, validate_float E duration_seconds with
  | Some sf, Some ef, Some df, Some ds =>
      inr {| ActionPeriod.start_frame := sf; ActionPeriod.end_frame := ef;
             ActionPeriod.duration_frames := df;
             ActionPeriod.duration_seconds := ds |}
  | _, _, _, _ =>
      inl (ValidationError (validation_text E "ActionPeriod"
             [("start_frame", start_frame); ("end_frame", end_frame);
              ("duration_frames", duration_frames);
              ("duration_seconds", duration_seconds)]))
  end.

(** [ActionSummary(total_duration_seconds=..., occurrence_count=...)] *)
Definition ActionSummary_init (E : Env)
    (total_duration_seconds occurrence_count : PyVal)
    : PyExc + ActionSummary.t :=
  match validate_float E total_duration_seconds,
        validate_int E occurrence_count with
  | Some tds, Some oc =>
      inr {| ActionSummary.total_duration_seconds := tds;
             ActionSummary.occurrence_count := oc |}
  | _, _ =>
      inl (ValidationError (validation_text E "ActionSummary"
             [("total_duration_seconds", total_duration_seconds);
              ("occurrence_count", occurrence_count)]))
  end.

(** [DetectedAction(action_name=..., periods=periods, summary=summary)]:
    [periods] and [summary] are instances built just before. *)
Definition DetectedAction_init (E : Env) (action_name : PyVal)
    (periods : list ActionPeriod.t) (summary : ActionSummary.t)
    : PyExc + DetectedAction.t :=
  match validate_str E action_name with
  | Some name =>
      inr {| DetectedAction.action_name := name;
             DetectedAction.periods := periods;
             DetectedAction.summary := summary |}
  | None =>
      inl (ValidationError (validation_text E "DetectedAction"
             [("action_name", action_name)]))
  end.

(** [PostureEventResponse(project_id=..., total_bad_postures=...,
    total_duration_seconds=..., detected_actions=...)] *)
Definition PostureEventResponse_init (E : Env) (project_id : string)
    (total_bad_postures total_duration_seconds : PyVal)
    (detected_actions : list DetectedAction.t)
    : PyExc + PostureEventResponse.t :=
  match validate_int E total_bad_postures,
        validate_float E total_duration_seconds with
  | Some tbp, Some tds =>
      inr {| PostureEventResponse.project_id := project_id;
             PostureEventResponse.total_bad_postures := tbp;
             PostureEventResponse.total_duration_seconds := tds;
             PostureEventResponse.detected_actions := detected_actions |}
  | _, _ =>
      inl (ValidationError (validation_text E "PostureEventResponse"
             [("total_bad_postures", total_bad_postures);
              ("total_duration_seconds", total_duration_seconds)]))
  end.

(** ** The result translator *)

Definition convert_period (E : Env) (period_data : PyVal)
    : PyExc + ActionPeriod.t :=
  start_frame ← subscript period_data "start_frame";
  end_frame ← subscript period_data "end_frame";
  duration_frames ← subscript period_data "duration_frames";
  duration_seconds ← subscript period_data "duration_seconds";
  ActionPeriod_init E start_frame end_frame duration_frames duration_seconds.

Definition convert_action (E : Env) (action_data : PyVal)
    : PyExc + DetectedAction.t :=
  raw_periods ← subscript action_data "periods";
  period_list ← iterate raw_periods;
  periods ← mapM (convert_period E) period_list;
  raw_summary ← subscript action_data "summary";
  total_duration_seconds ← subscript raw_summary "total_duration_seconds";
  raw_summary' ← subscript action_data "summary";
  occurrence_count ← subscript raw_summary' "occurrence_count";
  summary ← ActionSummary_init E total_duration_seconds occurrence_count;
  action_name ← subscript action_data "action_name";
  DetectedAction_init E action_name periods summary.

Definition convert_to_api_format (E : Env) (project_id : string)
    (analysis_result : PyVal) : PyExc + PostureEventResponse.t :=
  raw_summary ← subscript analysis_result "summary";
  total_bad_postures ← subscript raw_summary "total_bad_postures";
  raw_summary' ← subscript analysis_result "summary";
  total_duration_seconds ← subscript raw_summary' "total_duration_seconds";
  raw_actions ← subscript analysis_result "detected_actions";
  action_items ← dict_items raw_actions;
  detected_actions ← mapM (fun kv => convert_action E (snd kv)) action_items;
  PostureEventResponse_init E project_id total_bad_postures
    total_duration_seconds detected_actions.

(** ** The world the service runs in *)

(** The global dictionary [analysis_status] and the paths for which
    [os.path.exists] answers [True]. *)
Record World := {
  analysis_status : gmap string AnalysisStatus.t;
  files : gset string
}.

Definition with_status (w : World) (reg : gmap string AnalysisStatus.t) : World :=
  {| analysis_status := reg; files := files w |}.

Definition with_files (w : World) (fs : gset string) : World :=
  {| analysis_status := analysis_status w; files := fs |}.

(** [os.path.exists(path)]; the empty path never exists. *)
Definition os_path_exists (w : World) (path : string) : bool :=
  negb (String.eqb path "") && bool_decide (path ∈ files w).

(** ** Coroutines *)

(** What a run does that the properties speak about: attribute writes on a
    registry entry, calls of the analyzer, and calls of [os.unlink]. *)
Inductive Event :=
| EvSetattr (project_id : string) (f : AnalysisStatus.field)
| EvAnalyze (video_path : string)
| EvUnlink (path : string).

(** A background run is a coroutine on the event loop. It is a tree of
    atomic steps on the world, cut at every [await] that suspends it:
    between two such [await]s nothing else runs, and at one of them request
    handlers and other runs may change the world before the run resumes. *)
Record Step (K : Type) := {
  emitted : list Event;
  world_after : World;
  next : K
}.
Arguments emitted {K} _.
Arguments world_after {K} _.
Arguments next {K} _.

Inductive Coro (A : Type) :=
| Done (r : PyExc + A)
| Run (step : World -> Step (Coro A))
| Await (k : Coro A).
Arguments Done {A} _.
Arguments Run {A} _.
Arguments Await {A} _.

Fixpoint coro_bind_fix {A B} (f : A -> Coro B) (c : Coro A) : Coro B :=
  match c with
  | Done (inl e) => Done (inl e)
  | Done (inr a) => f a
  | Run step =>
      Run (fun w =>
             let s := step w in
             {| emitted := emitted s; world_after := world_after s;
                next := coro_bind_fix f (next s) |})
  | Await k => Await (coro_bind_fix f k)
  end.

#[export] Instance coro_ret : MRet Coro := fun _ x => Done (inr x).
#[export] Instance coro_bind : MBind Coro := @coro_bind_fix.

Definition raise {A} (e : PyExc) : Coro A := Done (inl e).

(** A pure computation inside a coroutine. *)
Definition lift {A} (x : PyExc + A) : Coro A := Done x.

(** [try: body / except Exception as e: handler e] *)
Fixpoint try_except {A} (body : Coro A) (handler : PyExc -> Coro A) : Coro A :=
  match body with
  | Done (inl e) => handler e
  | Done (inr a) => Done (inr a)
  | Run step =>
      Run (fun w =>
             let s := step w in
             {| emitted := emitted s; world_after := world_after s;
                next := try_except (next s) handler |})
  | Await k => Await (try_except k handler)
  end.

(** An [await] at which the run is suspended. *)
Definition await_point : Coro unit := Await (Done (inr tt)).

(** [async with httpx.AsyncClient(...) as client: body]: the client is
    closed, which is awaited, whether the body returned or raised. *)
Fixpoint async_with_client {A} (body : Coro A) : Coro A :=
  match body with
  | Done r => Await (Done r)
  | Run step =>
      Run (fun w =>
             let s := step w in
             {| emitted := emitted s; world_after := world_after s;
                next := async_with_client (next s) |})
  | Await k => Await (async_with_client k)
  end.

(** One atomic step that ends with a value or an exception. *)
Definition atomic {A} (f : World -> list Event * World * (PyExc + A)) : Coro A :=
  Run (fun w =>
         {| emitted := (f w).1.1; world_after := (f w).1.2;
            next := Done (f w).2 |}).

(** [analysis_status[project_id].<field> = <value>]: the lookup raises
    [KeyError] when the dictionary has no such key. *)
Definition setattr_status (project_id : string) (f : AnalysisStatus.field)
    : Coro unit :=
  atomic (fun w =>
    match analysis_status w !! project_id with
    | None => ([], w, inl (KeyError project_id))
    | Some st =>
        ([EvSetattr project_id f],
         with_status w
           (<[project_id := AnalysisStatus.setattr st f]> (analysis_status w)),
         inr tt)
    end).

(** [os.unlink(path)] *)
Definition os_unlink (E : Env) (path : string) : Coro unit :=
  atomic (fun w =>
    match unlink_fault E path with
    | Some e => ([EvUnlink path], w, inl e)
    | None =>
        if os_path_exists w path then
          ([EvUnlink path], with_files w (files w ∖ {[path]}), inr tt)
        else ([EvUnlink path], w, inl (FileNotFoundError path))
    end).

(** [with open(path, 'wb') as f: f.write(...)] *)
Definition write_file (E : Env) (path : string) : Coro unit :=
  atomic (fun w =>
    match open_fault E path with
    | Some e => ([], w, inl e)
    | None => ([], with_files w ({[path]} ∪ files w), inr tt)
    end).

(** [analyze_video_file(video_path)] *)
Definition call_analyzer (E : Env) (video_path : string) : Coro PyVal :=
  atomic (fun w => ([EvAnalyze video_path], w, analyze_video_file E video_path)).

(** *** Running a coroutine *)

(** What the rest of the service does to the world while a run is
    suspended. *)
Definition Interference := World -> World.

Record Outcome (A : Type) := {
  events : list Event;
  final : World;
  unused : list Interference;
  value : PyExc + A
}.
Arguments events {A} _.
Arguments final {A} _.
Arguments unused {A} _.
Arguments value {A} _.

(** The whole run, from world [w]: at its n-th suspension the n-th element
    of [sched] happens; past the end of [sched] nothing interferes. The
    outcome also tells which part of [sched] the run did not reach. *)
Fixpoint run {A} (c : Coro A) (w : World) (sched : list Interference)
    : Outcome A :=
  match c with
  | Done r => {| events := []; final := w; unused := sched; value := r |}
  | Run step =>
      let s := step w in
      let o := run (next s) (world_after s) sched in
      {| events := emitted s ++ events o; final := final o;
         unused := unused o; value := value o |}
  | Await k =>
      match sched with
      | [] => run k w []
      | i :: rest => run k (i w) rest
      end
  end.

(** The run up to its next suspension: what it did, and either the
    coroutine to resume or its result. *)
Record Segment (A : Type) := {
  seg_events : list Event;
  seg_world : World;
  seg_rest : Coro A + (PyExc + A)
}.
Arguments seg_events {A} _.
Arguments seg_world {A} _.
Arguments seg_rest {A} _.

Fixpoint segment {A} (c : Coro A) (w : World) : Segment A :=
  match c with
  | Done r => {| seg_events := []; seg_world := w; seg_rest := inr r |}
  | Run step =>
      let s := step w in
      let g := segment (next s) (world_after s) in
      {| seg_events := emitted s ++ seg_events g; seg_world := seg_world g;
         seg_rest := seg_rest g |}
  | Await k => {| seg_events := []; seg_world := w; seg_rest := inl k |}
  end.

(** Resuming a suspended run on the world of the moment. *)
Definition resume {A} (g : Segment A) (w : World) : Segment A :=
  match seg_rest g with
  | inl k => segment k w
  | inr r => {| seg_events := []; seg_world := w; seg_rest := inr r |}
  end.

(** Sequencing: the second part starts in the world, and with the
    schedule, the first part left. *)
Definition then_run {A B} (o : Outcome A) (f : A -> Coro B) : Outcome B :=
  match value o with
  | inl e =>
      {| events := events o; final := final o; unused := unused o;
         value := inl e |}
  | inr a =>
      let o' := run (f a) (final o) (unused o) in
      {| events := events o ++ events o'; final := final o';
         unused := unused o'; value := value o' |}
  end.

Definition or_handle {A} (o : Outcome A) (handler : PyExc -> Coro A) : Outcome A :=
  match value o with
  | inl e =>
      let o' := run (handler e) (final o) (unused o) in
      {| events := events o ++ events o'; final := final o';
         unused := unused o'; value := value o' |}
  | inr _ => o
  end.

(** ** Media acquisition by download *)

Fixpoint str_filter (keep : ascii -> bool) (s : string) : string :=
  match s with
  | EmptyString => EmptyString
  | String c s' =>
      if keep c then String c (str_filter keep s') else str_filter keep s'
  end.

Definition download_suffix (content_type : string) : string :=
  if str_in "webm" content_type then ".webm"
  else if str_in "avi" content_type then ".avi"
  else if str_in "mov" content_type then ".mov"
  else ".mp4".

(** The name of the file a download is stored in. *)
Definition temp_path (E : Env) (project_id content_type : string) : string :=
  let suffix := download_suffix content_type in
  let safe_project_id :=
    str_filter (fun c => isalnum E c || Ascii.eqb c "-" || Ascii.eqb c "_")
      project_id in
  let temp_filename :=
    "video_" +:+ safe_project_id +:+ "_" +:+
    Stdlib.Strings.String.substring 0 8 (uuid4_hex E) +:+ suffix in
  join E (TEMP_DIR E) temp_filename.

Definition download_video (E : Env) (video_url project_id : string) : Coro string :=
  try_except
    (async_with_client
       (await_point;;
        response ← lift (client_get E video_url);
        match Response.raise_for_status response with
        | Some e => raise e
        | None =>
            let temp_path :=
              temp_path E project_id (Response.content_type response) in
            write_file E temp_path;;
            mret temp_path
        end))
    (fun e => raise (Exception ("Failed to download video: " +:+ str_exc e))).

(** ** The background runs *)

Definition perform_file_analysis (E : Env) (project_id video_path : string)
    (is_temp_file : bool) : Coro unit :=
  try_except
    (setattr_status project_id (AnalysisStatus.Progress 30);;
     setattr_status project_id (AnalysisStatus.Message "Analyzing posture...");;
     analysis_result ← call_analyzer E video_path;
     setattr_status project_id (AnalysisStatus.Progress 80);;
     setattr_status project_id (AnalysisStatus.Message "Converting results...");;
     posture_response ← lift (convert_to_api_format E project_id analysis_result);
     (if is_temp_file
      then try_except (os_unlink E video_path) (fun _ => mret tt)
      else mret tt);;
     setattr_status project_id (AnalysisStatus.Status "completed");;
     setattr_status project_id (AnalysisStatus.Progress 100);;
     setattr_status project_id
       (AnalysisStatus.Message "Analysis completed successfully");;
     setattr_status project_id (AnalysisStatus.Result posture_response))
    (fun e =>
     setattr_status project_id (AnalysisStatus.Status "failed");;
     setattr_status project_id (AnalysisStatus.Progress 100);;
     setattr_status project_id
       (AnalysisStatus.Message ("Analysis failed: " +:+ str_exc e))).

Definition perform_url_analysis (E : Env) (project_id video_url : string)
    (callback_url : option string) : Coro unit :=
  try_except
    (setattr_status project_id (AnalysisStatus.Progress 10);;
     setattr_status project_id (AnalysisStatus.Message "Downloading video...");;
     video_path ← download_video E video_url project_id;
     perform_file_analysis E project_id video_path true)
    (fun e =>
     setattr_status project_id (AnalysisStatus.Status "failed");;
     setattr_status project_id (AnalysisStatus.Progress 100);;
     setattr_status project_id
       (AnalysisStatus.Message ("Analysis failed: " +:+ str_exc e))).

(** ** Request handlers *)

(** A handler runs without suspension: it takes the world to a reply, or
    to an [HTTPException], and a new world. *)
Definition Handler (A : Type) : Type := World -> (HTTPException + A) * World.

(** What [background_tasks.add_task] records: the run to start once the
    reply has been sent. *)
Inductive BackgroundTask :=
| UrlTask (project_id video_url : string) (callback_url : option string)
| FileTask (project_id video_path : string).

Definition run_task (E : Env) (t : BackgroundTask) : Coro unit :=
  match t with
  | UrlTask project_id video_url callback_url =>
      perform_url_analysis E project_id video_url callback_url
  | FileTask project_id video_path =>
      perform_file_analysis E project_id video_path false
  end.

Definition initial_status (project_id message : string) : AnalysisStatus.t :=
  {| AnalysisStatus.project_id := project_id;
     AnalysisStatus.status := "processing";
     AnalysisStatus.progress := 0;
     AnalysisStatus.message := Some message;
     AnalysisStatus.result := None |}.

Definition analyze_from_url (E : Env) (request : AnalysisRequest.t)
    : Handler (list (string * string) * BackgroundTask) := fun w =>
  let project_id := AnalysisRequest.project_id request in
  if negb (ANALYZER_AVAILABLE E) then
    (inl {| status_code := 503; detail := "Posture analyzer not available" |}, w)
  else
    (inr ([("message", "Analysis started successfully");
           ("project_id", project_id);
           ("status_url", "/status/" +:+ project_id);
           ("result_url", "/result/" +:+ project_id)],
          UrlTask project_id (AnalysisRequest.video_url request)
            (AnalysisRequest.callback_url request)),
     with_status w
       (<[project_id := initial_status project_id "Starting analysis from URL..."]>
          (analysis_status w))).

(** The three places a relative path is looked for, in order. *)
Definition potential_paths (E : Env) (video_path : string) : list string :=
  [video_path; join E (UPLOAD_DIR E) video_path; join E (getcwd E) video_path].

(** The first part of [analyze_from_file]: the value of the local variable
    [video_path] after the [if not os.path.isabs(video_path):] block, or
    the 404 raised inside it. *)
Definition resolve_video_path (E : Env) (w : World) (requested : string)
    : HTTPException + string :=
  if negb (isabs E requested) then
    match List.find (os_path_exists w) (potential_paths E requested) with
    | Some path =>
        if String.eqb path "" then
          inl {| status_code := 404;
                 detail := "Video file not found: " +:+ requested |}
        else inr path
    | None =>
        inl {| status_code := 404;
               detail := "Video file not found: " +:+ requested |}
    end
  else inr requested.

Definition analyze_from_file (E : Env) (request : DirectAnalysisRequest.t)
    : Handler (list (string * string) * BackgroundTask) := fun w =>
  let project_id := DirectAnalysisRequest.project_id request in
  if negb (ANALYZER_AVAILABLE E) then
    (inl {| status_code := 503; detail := "Posture analyzer not available" |}, w)
  else
    match resolve_video_path E w (DirectAnalysisRequest.video_path request) with
    | inl http_error => (inl http_error, w)
    | inr video_path =>
        if negb (os_path_exists w video_path) then
          (inl {| status_code := 404;
                  detail := "Video file not found: " +:+ video_path |}, w)
        else
          (inr ([("message", "Analysis started successfully");
                 ("project_id", project_id);
                 ("video_path", video_path);
                 ("status_url", "/status/" +:+ project_id);
                 ("result_url", "/result/" +:+ project_id)],
                FileTask project_id video_path),
           with_status w
             (<[project_id :=
                  initial_status project_id "Starting analysis from local file..."]>
                (analysis_status w)))
    end.

Definition get_analysis_status (project_id : string) : Handler AnalysisStatus.t :=
  fun w =>
    match analysis_status w !! project_id with
    | None => (inl {| status_code := 404; detail := "Analysis not found" |}, w)
    | Some st => (inr st, w)
    end.

Definition get_analysis_result (project_id : string)
    : Handler PostureEventResponse.t := fun w =>
  match analysis_status w !! project_id with
  | None => (inl {| status_code := 404; detail := "Analysis not found" |}, w)
  | Some st =>
      match AnalysisStatus.result st with
      | Some r =>
          if negb (String.eqb (AnalysisStatus.status st) "completed") then
            (inl {| status_code := 400; detail := "Analysis not completed yet" |}, w)
          else (inr r, w)
      | None =>
          (inl {| status_code := 400; detail := "Analysis not completed yet" |}, w)
      end
  end.

Definition delete_analysis (project_id : string) : Handler (list (string * string)) :=
  fun w =>
    match analysis_status w !! project_id with
    | Some _ =>
        (inr [("message", "Analysis deleted successfully")],
         with_status w (delete project_id (analysis_status w)))
    | None => (inl {| status_code := 404; detail := "Analysis not found" |}, w)
    end.

(** The effect of a request on the world, as seen by a suspended run. *)
Definition during {A} (h : Handler A) : Interference := fun w => snd (h w).

(** ** Observations on a run *)

(** The progress values a run wrote on the entry of [project_id], in order. *)
Fixpoint progress_writes (project_id : string) (evs : list Event) : list Z :=
  match evs with
  | [] => []
  | EvSetattr p (AnalysisStatus.Progress n) :: rest =>
      if String.eqb p project_id then n :: progress_writes project_id rest
      else progress_writes project_id rest
  | _ :: rest => progress_writes project_id rest
  end.

(** The paths a run called [os.unlink] on. *)
Fixpoint unlink_calls (evs : list Event) : list string :=
  match evs with
  | [] => []
  | EvUnlink path :: rest => path :: unlink_calls rest
  | _ :: rest => unlink_calls rest
  end.


(** The status values a run wrote on the entry of [project_id], in order. *)
Fixpoint status_writes (project_id : string) (evs : list Event) : list string :=
  match evs with
  | [] => []
  | EvSetattr p (AnalysisStatus.Status s) :: rest =>
      if String.eqb p project_id then s :: status_writes project_id rest
      else status_writes project_id rest
  | _ :: rest => status_writes project_id rest
  end.

(** The messages a run wrote on the entry of [project_id], in order. *)
Fixpoint message_writes (project_id : string) (evs : list Event) : list string :=
  match evs with
  | [] => []
  | EvSetattr p (AnalysisStatus.Message m) :: rest =>
      if String.eqb p project_id then m :: message_writes project_id rest
      else message_writes project_id rest
  | _ :: rest => message_writes project_id rest
  end.

(** The reports a run attached to the entry of [project_id], in order. *)
Fixpoint result_writes (project_id : string) (evs : list Event)
    : list PostureEventResponse.t :=
  match evs with
  | [] => []
  | EvSetattr p (AnalysisStatus.Result r) :: rest =>
      if String.eqb p project_id then r :: result_writes project_id rest
      else result_writes project_id rest
  | _ :: rest => result_writes project_id rest
  end.

(** The entry [st] shows what the run with events [evs] wrote last on it:
    its one status, its last progress and message and, when that status is
    "completed", its report. *)
Definition own_state (p : string) (evs : list Event) (st : AnalysisStatus.t)
    : Prop :=
  status_writes p evs = [AnalysisStatus.status st] /\
  last (progress_writes p evs) = Some (AnalysisStatus.progress st) /\
  last (message_writes p evs) = AnalysisStatus.message st /\
  (AnalysisStatus.status st = "completed" ->
   exists r, AnalysisStatus.result st = Some r /\
             last (result_writes p evs) = Some r).

(** ** What a run comes to *)

(** Analysis followed by translation: the report, or the first exception
    of the two. *)
Definition analysis_verdict (E : Env) (project_id video_path : string)
    : PyExc + PostureEventResponse.t :=
  analysis_result ← analyze_video_file E video_path;
  convert_to_api_format E project_id analysis_result.

(** The entry as the last statements of a run leave it: the four writes of
    the success path, or the three writes of an [except] clause. *)
Definition closed (st : AnalysisStatus.t)
    (verdict : PyExc + PostureEventResponse.t) : AnalysisStatus.t :=
  match verdict with
  | inl e =>
      {| AnalysisStatus.project_id := AnalysisStatus.project_id st;
         AnalysisStatus.status := "failed";
         AnalysisStatus.progress := 100;
         AnalysisStatus.message := Some ("Analysis failed: " +:+ str_exc e);
         AnalysisStatus.result := AnalysisStatus.result st |}
  | inr r =>
      {| AnalysisStatus.project_id := AnalysisStatus.project_id st;
         AnalysisStatus.status := "completed";
         AnalysisStatus.progress := 100;
         AnalysisStatus.message := Some "Analysis completed successfully";
         AnalysisStatus.result := Some r |}
  end.

Definition set_entry (w : World) (project_id : string) (st : AnalysisStatus.t)
    : World :=
  with_status w (<[project_id := st]> (analysis_status w)).

(** The three writes of an [except] clause of a run. *)
Definition failure_events (project_id : string) (e : PyExc) : list Event :=
  [EvSetattr project_id (AnalysisStatus.Status "failed");
   EvSetattr project_id (AnalysisStatus.Progress 100);
   EvSetattr project_id
     (AnalysisStatus.Message ("Analysis failed: " +:+ str_exc e))].

(** What [perform_file_analysis] does, statement by statement, when the
    entry of the job is in the registry. *)
Definition file_run_events (E : Env) (project_id video_path : string)
    (is_temp_file : bool) : list Event :=
  [EvSetattr project_id (AnalysisStatus.Progress 30);
   EvSetattr project_id (AnalysisStatus.Message "Analyzing posture...");
   EvAnalyze video_path] ++
  match analyze_video_file E video_path with
  | inl e => failure_events project_id e
  | inr analysis_result =>
      [EvSetattr project_id (AnalysisStatus.Progress 80);
       EvSetattr project_id (AnalysisStatus.Message "Converting results...")] ++
      match convert_to_api_format E project_id analysis_result with
      | inl e => failure_events project_id e
      | inr posture_response =>
          (if is_temp_file then [EvUnlink video_path] else []) ++
          [EvSetattr project_id (AnalysisStatus.Status "completed");
           EvSetattr project_id (AnalysisStatus.Progress 100);
           EvSetattr project_id
             (AnalysisStatus.Message "Analysis completed successfully");
           EvSetattr project_id (AnalysisStatus.Result posture_response)]
      end
  end.

(** The files left by [os.unlink(path)] inside its [try]. *)
Definition files_after_unlink (E : Env) (w : World) (path : string) : gset string :=
  match unlink_fault E path with
  | Some _ => files w
  | None => if os_path_exists w path then files w ∖ {[path]} else files w
  end.

Definition file_run_files (E : Env) (project_id video_path : string)
    (is_temp_file : bool) (w : World) : gset string :=
  match analysis_verdict E project_id video_path with
  | inl _ => files w
  | inr _ => if is_temp_file then files_after_unlink E w video_path else files w
  end.

(** What [download_video] returns or raises. *)
Definition download_outcome (E : Env) (video_url project_id : string)
    : PyExc + string :=
  match
    response ← client_get E video_url;
    match Response.raise_for_status response with
    | Some e => inl e
    | None =>
        let path := temp_path E project_id (Response.content_type response) in
        match open_fault E path with
        | Some e => inl e
        | None => inr path
        end
    end
  with
  | inl e => inl (Exception ("Failed to download video: " +:+ str_exc e))
  | inr path => inr path
  end.

(** The world [download_video] leaves: the downloaded file is written
    between the two suspensions of the download. *)
Definition download_final (E : Env) (video_url project_id : string)
    (w : World) (sched : list Interference) : World :=
  let w' := nth 0 sched id w in
  nth 1 sched id
    match download_outcome E video_url project_id with
    | inl _ => w'
    | inr path => with_files w' ({[path]} ∪ files w')
    end.

(** The entry when the download starts. *)
Definition downloading (st : AnalysisStatus.t) : AnalysisStatus.t :=
  AnalysisStatus.setattr (AnalysisStatus.setattr st (AnalysisStatus.Progress 10))
    (AnalysisStatus.Message "Downloading video...").

(** The two writes of a URL run before it downloads. *)
Definition download_events (p : string) : list Event :=
  [EvSetattr p (AnalysisStatus.Progress 10);
   EvSetattr p (AnalysisStatus.Message "Downloading video...")].

(** An interference that does not delete the entry of [project_id]. *)
Definition keeps_entry (project_id : string) (i : Interference) : Prop :=
  forall w, is_Some (analysis_status w !! project_id) ->
            is_Some (analysis_status (i w) !! project_id).

(** ** Notions the properties are stated with *)


(** The world once a submission and the run it started, left alone, are
    over. *)
Definition settled {R} (E : Env)
    (submission : (HTTPException + (R * BackgroundTask)) * World) : World :=
  match submission with
  | (inr (_, task), w) => final (run (run_task E task) w [])
  | (inl _, w) => w
  end.




(** Either way of submitting a job. *)
Inductive Submission :=
| ByUrl (request : AnalysisRequest.t)
| ByPath (request : DirectAnalysisRequest.t).

Definition submit (E : Env) (s : Submission)
    : Handler (list (string * string) * BackgroundTask) :=
  match s with
  | ByUrl request => analyze_from_url E request
  | ByPath request => analyze_from_file E request
  end.

(** An interference that leaves the entry of [project_id] as it is. *)
Definition leaves_entry (project_id : string) (i : Interference) : Prop :=
  forall w, analysis_status (i w) !! project_id = analysis_status w !! project_id.

(** *** The transition table of the state machine *)

Inductive Phase := Acquisition | Analysis | Translation.

(** Whether a run has an acquisition phase of its own: a job submitted by
    path had its input resolved by the handler. *)
Definition acquires (t : BackgroundTask) : bool :=
  match t with
  | UrlTask _ _ _ => true
  | FileTask _ _ => false
  end.

(** The progress milestones of the table, for a run whose first failing
    phase is [failed] (none when the job completes). *)
Definition milestones (acquires : bool) (failed : option Phase) : list Z :=
  (if acquires then [10] else []) ++
  match failed with
  | Some Acquisition => [100]
  | Some Analysis => [30; 100]
  | Some Translation => [30; 80; 100]
  | None => [30; 80; 100]
  end.

Definition terminal_state (failed : option Phase) : string :=
  match failed with
  | Some _ => "failed"
  | None => "completed"
  end.

(** The first phase of a run that raises, read off the collaborators. *)
Definition analysis_failure (E : Env) (project_id video_path : string)
    : option Phase :=
  match analyze_video_file E video_path with
  | inl _ => Some Analysis
  | inr analysis_result =>
      match convert_to_api_format E project_id analysis_result with
      | inl _ => Some Translation
      | inr _ => None
      end
  end.

Definition first_failure (E : Env) (t : BackgroundTask) : option Phase :=
  match t with
  | UrlTask project_id video_url _ =>
      match download_outcome E video_url project_id with
      | inl _ => Some Acquisition
      | inr video_path => analysis_failure E project_id video_path
      end
  | FileTask project_id video_path => analysis_failure E project_id video_path
  end.

(** ** A concrete deployment used to run the service on examples *)

Definition ascii_isalnum (c : ascii) : bool :=
  let n := nat_of_ascii c in
  ((48 <=? n) && (n <=? 57) || (65 <=? n) && (n <=? 90) ||
   (97 <=? n) && (n <=? 122))%nat.

(** One action, "slouching", with two periods of 3.0 s and 2.5 s. *)
Definition slouching_periods : PyVal :=
  PyList
    [PyDict [("start_frame", PyInt 0); ("end_frame", PyInt 89);
             ("duration_frames", PyInt 90);
             ("duration_seconds", PyFloat (Float64 0x4008000000000000))];
     PyDict [("start_frame", PyInt 120); ("end_frame", PyInt 194);
             ("duration_frames", PyInt 75);
             ("duration_seconds", PyFloat (Float64 0x4004000000000000))]].

Definition slouching_output (occurrence_count : Z) : PyVal :=
  PyDict
    [("summary",
      PyDict [("total_bad_postures", PyInt 2);
              ("total_duration_seconds", PyFloat (Float64 0x4016000000000000))]);
     ("detected_actions",
      PyDict
        [("slouching",
          PyDict
            [("action_name", PyStr "slouching");
             ("periods", slouching_periods);
             ("summary",
              PyDict [("total_duration_seconds",
                       PyFloat (Float64 0x4016000000000000));
                      ("occurrence_count", PyInt occurrence_count)])])])].

(** A POSIX host in [/srv/posture] whose analyzer answers [analyzer] and
    whose HTTP client answers [client]; nothing else fails, and pydantic
    accepts only values that already have the field's type. *)
Definition deployment (analyzer : string -> PyExc + PyVal)
    (client : string -> PyExc + Response.t) : Env :=
  {| ANALYZER_AVAILABLE := true;
     getcwd := "/srv/posture";
     isabs := posix_isabs;
     join := posix_join;
     analyze_video_file := analyzer;
     client_get := client;
     uuid4_hex := "3f2a9c51d0b84e76a1c2d3e4f5a6b7c8";
     isalnum := ascii_isalnum;
     open_fault := fun _ => None;
     unlink_fault := fun _ => None;
     lax_int := fun _ => None;
     lax_float := fun _ => None;
     lax_str := fun _ => None;
     validation_text := fun model _ => "validation error for " +:+ model |}.

Definition mp4_response : Response.t :=
  {| Response.raise_for_status := None; Response.content_type := "video/mp4" |}.

Definition empty_world : World := {| analysis_status := ∅; files := ∅ |}.

Definition simple_deployment : Env :=
  deployment (fun _ => inr (slouching_output 2)) (fun _ => inr mp4_response).

(** The request of the scenario of job "t1": a file that is nowhere. *)
Definition t1_request : DirectAnalysisRequest.t :=
  {| DirectAnalysisRequest.project_id := "t1";
     DirectAnalysisRequest.video_path := "missing.mp4" |}.

(** A video that exists, and a job on it. *)
Definition talk_world : World :=
  {| analysis_status := ∅; files := {["/videos/talk.mp4"]} |}.

Definition talk_request (project_id : string) : DirectAnalysisRequest.t :=
  {| DirectAnalysisRequest.project_id := project_id;
     DirectAnalysisRequest.video_path := "/videos/talk.mp4" |}.



(** A job on a remote video. *)
Definition url_request (project_id video_url : string) : AnalysisRequest.t :=
  {| AnalysisRequest.project_id := project_id;
     AnalysisRequest.video_url := video_url;
     AnalysisRequest.callback_url := None |}.

(** A host whose analyzer cannot read the video it is given. *)
Definition broken_video_deployment : Env :=
  deployment (fun _ => inl (ForeignError "RuntimeError" "cannot open video"))
    (fun _ => inr mp4_response).

(** A host that reaches every source but "http://videos/gone.mp4". *)
Definition two_sources : Env :=
  deployment (fun _ => inr (slouching_output 2))
    (fun video_url =>
       if String.eqb video_url "http://videos/gone.mp4"
       then inl (ForeignError "ConnectTimeout" "timed out")
       else inr mp4_response).

(** Job "t9" submitted twice, by URL, the second time while the first run
    is downloading. [second_ends_first] tells which run ends first: the
    second, whose source cannot be reached, or the first, whose video
    arrives and is analysed. The result is the last segment of each run. *)
Definition overlapping_runs (second_ends_first : bool)
    : Segment unit * Segment unit :=
  let E := two_sources in
  let w1 := snd (analyze_from_url E (url_request "t9" "http://videos/first.mp4")
                   empty_world) in
  let first := segment (perform_url_analysis E "t9" "http://videos/first.mp4" None)
                 w1 in
  let w2 := snd (analyze_from_url E (url_request "t9" "http://videos/gone.mp4")
                   (seg_world first)) in
  let second := segment (perform_url_analysis E "t9" "http://videos/gone.mp4" None)
                  w2 in
  if second_ends_first then
    let second := resume second (seg_world second) in
    let second := resume second (seg_world second) in
    let first := resume first (seg_world second) in
    let first := resume first (seg_world first) in
    (first, second)
  else
    let first := resume first (seg_world second) in
    let first := resume first (seg_world first) in
    let second := resume second (seg_world first) in
    let second := resume second (seg_world second) in
    (first, second).

Definition t6_submission : Submission :=
  ByUrl (url_request "t6" "http://videos/talk.mp4").

Definition t6_reply : list (string * string) :=
  [("message", "Analysis started successfully"); ("project_id", "t6");
   ("status_url", "/status/t6"); ("result_url", "/result/t6")].

Definition t6_task : BackgroundTask := UrlTask "t6" "http://videos/talk.mp4" None.

Definition t6_world : World :=
  set_entry empty_world "t6" (initial_status "t6" "Starting analysis from URL...").


Definition task_id (t : BackgroundTask) : string :=
  match t with
  | UrlTask project_id _ _ => project_id
  | FileTask project_id _ => project_id
  end.

(** * The rest of the service *)

(** The paths a run called the analyzer on, in order. *)
Fixpoint analyze_calls (evs : list Event) : list string :=
  match evs with
  | [] => []
  | EvAnalyze video_path :: rest => video_path :: analyze_calls rest
  | _ :: rest => analyze_calls rest
  end.

(** The jobs a run wrote on, in order. *)
Fixpoint written_jobs (evs : list Event) : list string :=
  match evs with
  | [] => []
  | EvSetattr project_id _ :: rest => project_id :: written_jobs rest
  | _ :: rest => written_jobs rest
  end.


(** ** What the upload and health handlers take from the platform *)

(** [os.path.splitext], [str.lower], the order in which the interpreter
    iterates the set literal [allowed_extensions], and the clock. *)
Record Platform := {
  splitext : string -> string * string;
  lower : string -> string;
  allowed_in_order : list string;
  now_isoformat : string
}.

(** [p.rfind(c)]: the index of the last [c] in [p], or -1. *)
Fixpoint rfind_from (c : ascii) (p : string) (i : Z) : Z :=
  match p with
  | EmptyString => -1
  | String c' p' =>
      let later := rfind_from c p' (i + 1) in
      if 0 <=? later then later else if Ascii.eqb c' c then i else -1
  end.

Definition rfind (c : ascii) (p : string) : Z := rfind_from c p 0.

Definition char_at (p : string) (i : Z) : option ascii :=
  Stdlib.Strings.String.get (Z.to_nat i) p.

(** [posixpath.splitext]: the extension starts at the last dot of the
    last component, unless only dots stand before it in that component. *)
Definition posix_splitext (p : string) : string * string :=
  let sepIndex := rfind "/" p in
  let dotIndex := rfind "." p in
  if (sepIndex <? dotIndex) &&
     existsb (fun i => match char_at p i with
                       | Some c => negb (Ascii.eqb c ".")
                       | None => false
                       end)
       (map (fun k => sepIndex + 1 + Z.of_nat k)
          (seq 0 (Z.to_nat (dotIndex - sepIndex - 1))))
  then (Stdlib.Strings.String.substring 0 (Z.to_nat dotIndex) p,
        Stdlib.Strings.String.substring (Z.to_nat dotIndex)
          (Stdlib.Strings.String.length p - Z.to_nat dotIndex) p)
  else (p, "").

(** [str.lower] on a string of ASCII characters. *)
Definition ascii_lower_char (c : ascii) : ascii :=
  let n := nat_of_ascii c in
  if ((65 <=? n) && (n <=? 90))%nat then ascii_of_nat (n + 32) else c.

Fixpoint ascii_lower (s : string) : string :=
  match s with
  | EmptyString => EmptyString
  | String c s' => String (ascii_lower_char c) (ascii_lower s')
  end.

Definition posix_platform : Platform :=
  {| splitext := posix_splitext;
     lower := ascii_lower;
     allowed_in_order := [".mp4"; ".avi"; ".mov"; ".mkv"; ".webm"];
     now_isoformat := "2025-01-01T00:00:00" |}.

(** ** Uploading a video *)

(** [UploadFile]: the name the client gave, if any, and the bytes sent. *)
Module UploadFile.
Record t := {
  filename : option string;
  file : list Byte.byte
}.
End UploadFile.

(** The reply of [upload_video]. *)
Module UploadReply.
Record t := {
  message : string;
  filename : string;
  file_path : string;
  file_size : nat;
  upload_time : string
}.
End UploadReply.

(** The set literal [allowed_extensions], for membership. *)
Definition allowed_extensions : list string :=
  [".mp4"; ".avi"; ".mov"; ".mkv"; ".webm"].

(** [', '.join(l)] *)
Fixpoint comma_join (l : list string) : string :=
  match l with
  | [] => ""
  | [x] => x
  | x :: rest => x +:+ ", " +:+ comma_join rest
  end.

(** [upload_video]. The [open_fault] of the environment is the exception of
    [open(file_path, "wb")], if any; a file that opened is written whole. *)
Definition upload_video (E : Env) (P : Platform) (file : UploadFile.t)
    : Handler UploadReply.t := fun w =>
  match UploadFile.filename file with
  | None => (inl {| status_code := 400; detail := "No file provided" |}, w)
  | Some name =>
      if String.eqb name "" then
        (inl {| status_code := 400; detail := "No file provided" |}, w)
      else
        let file_extension := lower P (snd (splitext P name)) in
        if negb (existsb (String.eqb file_extension) allowed_extensions) then
          (inl {| status_code := 400;
                  detail := "Unsupported file format. Allowed: " +:+
                            comma_join (allowed_in_order P) |}, w)
        else
          let safe_filename := uuid4_hex E +:+ "_" +:+ name in
          let file_path := join E (UPLOAD_DIR E) safe_filename in
          match open_fault E file_path with
          | Some e =>
              (inl {| status_code := 500;
                      detail := "Failed to upload file: " +:+ str_exc e |}, w)
          | None =>
              (inr {| UploadReply.message := "File uploaded successfully";
                      UploadReply.filename := safe_filename;
                      UploadReply.file_path := file_path;
                      UploadReply.file_size := length (UploadFile.file file);
                      UploadReply.upload_time := now_isoformat P |},
               with_files w ({[file_path]} ∪ files w))
          end
  end.

(** ** Health and listing *)

Module HealthChecks.
Record t := {
  service : string;
  analyzer_available : bool;
  temp_dir : bool;
  upload_dir : bool;
  logs_dir : bool;
  active_analyses : nat
}.
End HealthChecks.

Module HealthReply.
Record t := {
  status : string;
  checks : HealthChecks.t;
  timestamp : string
}.
End HealthReply.

Definition health_check (E : Env) (P : Platform) : Handler HealthReply.t := fun w =>
  let checks :=
    {| HealthChecks.service := "healthy";
       HealthChecks.analyzer_available := ANALYZER_AVAILABLE E;
       HealthChecks.temp_dir := os_path_exists w (TEMP_DIR E);
       HealthChecks.upload_dir := os_path_exists w (UPLOAD_DIR E);
       HealthChecks.logs_dir := os_path_exists w "logs";
       HealthChecks.active_analyses := size (analysis_status w) |} in
  let status :=
    if forallb id [String.eqb (HealthChecks.service checks) "healthy";
                   HealthChecks.temp_dir checks; HealthChecks.upload_dir checks]
    then "healthy" else "warning" in
  (inr {| HealthReply.status := status; HealthReply.checks := checks;
          HealthReply.timestamp := now_isoformat P |}, w).

(** One element of the list [list_analyses] returns. *)
Module AnalysisSummary.
Record t := {
  project_id : string;
  status : string;
  progress : Z;
  message : option string
}.
End AnalysisSummary.

Definition summary_of (kv : string * AnalysisStatus.t) : AnalysisSummary.t :=
  {| AnalysisSummary.project_id := fst kv;
     AnalysisSummary.status := AnalysisStatus.status (snd kv);
     AnalysisSummary.progress := AnalysisStatus.progress (snd kv);
     AnalysisSummary.message := AnalysisStatus.message (snd kv) |}.

(** [list_analyses]: the summaries and their count. The service lists the
    jobs in the order they were first submitted; the registry here keeps no
    such order, so the list is the service's up to the order of its
    elements, and only such properties are stated of it. *)
Definition list_analyses : Handler (list AnalysisSummary.t * nat) := fun w =>
  let analyses := summary_of <$> map_to_list (analysis_status w) in
  (inr (analyses, length analyses), w).

(** ** An analyzer output that conforms to the schema *)

Definition is_int (v : PyVal) : bool :=
  match v with PyInt _ => true | _ => false end.

Definition is_float (v : PyVal) : bool :=
  match v with PyFloat _ => true | _ => false end.

Definition is_str (v : PyVal) : bool :=
  match v with PyStr _ => true | _ => false end.

(** [v] is a dictionary whose [key] holds a value that passes [check]. *)
Definition field_is (check : PyVal -> bool) (v : PyVal) (key : string) : bool :=
  match subscript v key with
  | inr x => check x
  | inl _ => false
  end.

Definition period_conforms (period_data : PyVal) : bool :=
  field_is is_int period_data "start_frame" &&
  field_is is_int period_data "end_frame" &&
  field_is is_int period_data "duration_frames" &&
  field_is is_float period_data "duration_seconds".

Definition summary_conforms (action_data : PyVal) : bool :=
  match subscript action_data "summary" with
  | inr raw_summary =>
      field_is is_float raw_summary "total_duration_seconds" &&
      field_is is_int raw_summary "occurrence_count"
  | inl _ => false
  end.

Definition action_conforms (action_data : PyVal) : bool :=
  match subscript action_data "periods" with
  | inr (PyList period_list) => forallb period_conforms period_list
  | _ => false
  end &&
  summary_conforms action_data &&
  field_is is_str action_data "action_name".

Definition output_conforms (analysis_result : PyVal) : bool :=
  match subscript analysis_result "summary" with
  | inr raw_summary =>
      field_is is_int raw_summary "total_bad_postures" &&
      field_is is_float raw_summary "total_duration_seconds"
  | inl _ => false
  end &&
  match subscript analysis_result "detected_actions" with
  | inr (PyDict action_items) =>
      forallb (fun kv => action_conforms (snd kv)) action_items
  | _ => false
  end.

(** ** More deployments *)

(** A host on which [os.unlink] is refused. *)
Definition locked_temp_deployment : Env :=
  {| ANALYZER_AVAILABLE := true;
     getcwd := "/srv/posture";
     isabs := posix_isabs;
     join := posix_join;
     analyze_video_file := fun _ => inr (slouching_output 2);
     client_get := fun _ => inr mp4_response;
     uuid4_hex := "3f2a9c51d0b84e76a1c2d3e4f5a6b7c8";
     isalnum := ascii_isalnum;
     open_fault := fun _ => None;
     unlink_fault := fun _ => Some (ForeignError "PermissionError"
                                     "[Errno 13] Permission denied");
     lax_int := fun _ => None;
     lax_float := fun _ => None;
     lax_str := fun _ => None;
     validation_text := fun model _ => "validation error for " +:+ model |}.

(** A host whose analyzer module could not be imported. *)
Definition no_analyzer_deployment : Env :=
  {| ANALYZER_AVAILABLE := false;
     getcwd := "/srv/posture";
     isabs := posix_isabs;
     join := posix_join;
     analyze_video_file := fun _ => inl (ForeignError "NameError"
                                           "name 'analyze_video_file' is not defined");
     client_get := fun _ => inr mp4_response;
     uuid4_hex := "3f2a9c51d0b84e76a1c2d3e4f5a6b7c8";
     isalnum := ascii_isalnum;
     open_fault := fun _ => None;
     unlink_fault := fun _ => None;
     lax_int := fun _ => None;
     lax_float := fun _ => None;
     lax_str := fun _ => None;
     validation_text := fun model _ => "validation error for " +:+ model |}.

(** A video uploaded earlier, besides one of the same name in the working
    directory of the service. *)
Definition two_copies_world : World :=
  {| analysis_status := ∅;
     files := {["/srv/posture/uploads/talk.mp4"; "/srv/posture/talk.mp4"]} |}.

(** The upload of "Talk.MP4", four bytes long. *)
Definition talk_upload : UploadFile.t :=
  {| UploadFile.filename := Some "Talk.MP4";
     UploadFile.file := [Byte.x00; Byte.x00; Byte.x00; Byte.x18] |}.

Definition talk_upload_reply : UploadReply.t :=
  {| UploadReply.message := "File uploaded successfully";
     UploadReply.filename := "3f2a9c51d0b84e76a1c2d3e4f5a6b7c8_Talk.MP4";
     UploadReply.file_path :=
       "/srv/posture/uploads/3f2a9c51d0b84e76a1c2d3e4f5a6b7c8_Talk.MP4";
     UploadReply.file_size := 4;
     UploadReply.upload_time := "2025-01-01T00:00:00" |}.

Definition talk_uploaded_world : World :=
  with_files empty_world
    ({["/srv/posture/uploads/3f2a9c51d0b84e76a1c2d3e4f5a6b7c8_Talk.MP4"]} ∪
     files empty_world).

(** * Properties *)

(** ** Running composed coroutines *)

Lemma Coro_induction {A} (P : Coro A -> Prop) :
  (forall r, P (Done r)) ->
  (forall step, (forall w, P (next (step w))) -> P (Run step)) ->
  (forall k, P k -> P (Await k)) ->
  forall c, P c.
Proof.
  intros HDone HRun HAwait. fix IH 1. intros [r | step | k].
  - apply HDone.
  - apply HRun. intros w. apply IH.
  - apply HAwait, IH.
Qed.

Lemma run_bind {A B} (c : Coro A) (f : A -> Coro B) w sched :
  run (c ≫= f) w sched = then_run (run c w sched) f.
Proof.
  revert w sched. induction c as [[e | a] | step IH | k IH] using Coro_induction;
    intros w sched.
  - reflexivity.
  - unfold then_run. cbn. by destruct (run (f a) w sched).
  - unfold then_run in *. cbn. unfold mbind, coro_bind in IH. rewrite IH.
    destruct (value (run (next (step w)) (world_after (step w)) sched));
      cbn; [done | by rewrite app_assoc].
  - destruct sched as [| i rest]; cbn; apply IH.
Qed.

Lemma run_try_except {A} (body : Coro A) (handler : PyExc -> Coro A) w sched :
  run (try_except body handler) w sched = or_handle (run body w sched) handler.
Proof.
  revert w sched.
  induction body as [[e | a] | step IH | k IH] using Coro_induction;
    intros w sched.
  - unfold or_handle. cbn. by destruct (run (handler e) w sched).
  - reflexivity.
  - unfold or_handle in *. cbn. rewrite IH.
    destruct (value (run (next (step w)) (world_after (step w)) sched)) eqn:Hv;
      cbn; [by rewrite app_assoc | by rewrite Hv].
  - destruct sched as [| i rest]; cbn; apply IH.
Qed.

Lemma run_async_with_client {A} (body : Coro A) w sched :
  run (async_with_client body) w sched =
  let o := run body w sched in
  {| events := events o;
     final := match unused o with [] => final o | i :: _ => i (final o) end;
     unused := tl (unused o);
     value := value o |}.
Proof.
  revert w sched.
  induction body as [r | step IH | k IH] using Coro_induction; intros w sched.
  - by destruct sched.
  - cbn. by rewrite IH.
  - destruct sched as [| i rest]; cbn; apply IH.
Qed.

(** A run is its first segment followed by the run of what was suspended,
    on the world the interference made of it. *)
Lemma run_segment {A} (c : Coro A) w sched :
  run c w sched =
  let g := segment c w in
  match seg_rest g with
  | inr r =>
      {| events := seg_events g; final := seg_world g; unused := sched;
         value := r |}
  | inl k =>
      let o := match sched with
               | [] => run k (seg_world g) []
               | i :: rest => run k (i (seg_world g)) rest
               end in
      {| events := seg_events g ++ events o; final := final o;
         unused := unused o; value := value o |}
  end.
Proof.
  revert w. induction c as [r | step IH | k IH] using Coro_induction; intros w.
  - reflexivity.
  - cbn. rewrite IH. cbn.
    destruct (seg_rest (segment (next (step w)) (world_after (step w))));
      cbn; [by rewrite app_assoc | done].
  - cbn. by destruct sched as [| i rest]; destruct (run k _ _).
Qed.

Lemma run_setattr_status p f w sched :
  run (setattr_status p f) w sched =
  match analysis_status w !! p with
  | None => {| events := []; final := w; unused := sched;
               value := inl (KeyError p) |}
  | Some st =>
      {| events := [EvSetattr p f];
         final := with_status w
                    (<[p := AnalysisStatus.setattr st f]> (analysis_status w));
         unused := sched; value := inr tt |}
  end.
Proof. cbn. by destruct (analysis_status w !! p). Qed.

Lemma run_lift {A} (x : PyExc + A) w sched :
  run (lift x) w sched =
  {| events := []; final := w; unused := sched; value := x |}.
Proof. reflexivity. Qed.

Lemma run_mret {A} (x : A) w sched :
  run (mret x) w sched =
  {| events := []; final := w; unused := sched; value := inr x |}.
Proof. reflexivity. Qed.

Lemma run_call_analyzer E v w sched :
  run (call_analyzer E v) w sched =
  {| events := [EvAnalyze v]; final := w; unused := sched;
     value := analyze_video_file E v |}.
Proof. reflexivity. Qed.

Lemma lookup_set_entry w p st : analysis_status (set_entry w p st) !! p = Some st.
Proof. apply lookup_insert_eq. Qed.

Lemma set_entry_twice w p st st' :
  set_entry (set_entry w p st) p st' = set_entry w p st'.
Proof. unfold set_entry, with_status. cbn. by rewrite insert_insert_eq. Qed.

Lemma run_setattr_entry p f w sched st :
  analysis_status w !! p = Some st ->
  run (setattr_status p f) w sched =
  {| events := [EvSetattr p f];
     final := set_entry w p (AnalysisStatus.setattr st f);
     unused := sched; value := inr tt |}.
Proof. intros Hst. by rewrite run_setattr_status, Hst. Qed.

(** Symbolic execution of straight-line code on a world whose entry for
    the job is known. *)
Ltac exec :=
  repeat first
    [ rewrite run_try_except
    | rewrite run_bind
    | erewrite run_setattr_entry by
        first [ eassumption | apply lookup_set_entry ]
    | rewrite run_call_analyzer
    | rewrite run_lift
    | rewrite run_mret
    | rewrite set_entry_twice
    | progress cbn [then_run or_handle value final unused events app] ].

(** An [except] clause of a run. *)
Lemma run_failure_writes p e w sched :
  run (setattr_status p (AnalysisStatus.Status "failed");;
       setattr_status p (AnalysisStatus.Progress 100);;
       setattr_status p
         (AnalysisStatus.Message ("Analysis failed: " +:+ str_exc e)))
      w sched =
  match analysis_status w !! p with
  | None => {| events := []; final := w; unused := sched;
               value := inl (KeyError p) |}
  | Some st =>
      {| events := failure_events p e;
         final := set_entry w p (closed st (inl e));
         unused := sched; value := inr tt |}
  end.
Proof.
  destruct (analysis_status w !! p) as [st |] eqn:Hst.
  - by exec.
  - rewrite run_bind, run_setattr_status, Hst. reflexivity.
Qed.

Lemma run_unlink_guarded E path w sched :
  run (try_except (os_unlink E path) (fun _ => mret tt)) w sched =
  {| events := [EvUnlink path];
     final := with_files w (files_after_unlink E w path);
     unused := sched; value := inr tt |}.
Proof.
  rewrite run_try_except. unfold or_handle, os_unlink, files_after_unlink, atomic.
  cbn. destruct (unlink_fault E path); cbn.
  - by destruct w.
  - destruct (os_path_exists w path); cbn; [done | by destruct w].
Qed.

(** *** The file run, statement by statement *)

Lemma file_run_absent E p v b w sched :
  analysis_status w !! p = None ->
  run (perform_file_analysis E p v b) w sched =
  {| events := []; final := w; unused := sched; value := inl (KeyError p) |}.
Proof.
  intros Hst. unfold perform_file_analysis.
  rewrite run_try_except, run_bind, run_setattr_status, Hst.
  unfold or_handle, then_run. cbn [value final unused events].
  rewrite run_failure_writes, Hst. reflexivity.
Qed.

Lemma file_run_present E p v b w sched st :
  analysis_status w !! p = Some st ->
  run (perform_file_analysis E p v b) w sched =
  {| events := file_run_events E p v b;
     final := with_files (set_entry w p (closed st (analysis_verdict E p v)))
                (file_run_files E p v b w);
     unused := sched; value := inr tt |}.
Proof.
  intros Hst. unfold perform_file_analysis, file_run_events, file_run_files,
    analysis_verdict.
  exec. destruct (analyze_video_file E v) as [e | raw]; exec.
  { reflexivity. }
  change (inr raw ≫= _) with (convert_to_api_format E p raw).
  destruct (convert_to_api_format E p raw) as [e | r]; exec.
  { reflexivity. }
  destruct b; [rewrite run_unlink_guarded |]; exec; [| reflexivity].
  unfold files_after_unlink, os_path_exists, set_entry, with_files, with_status.
  cbn. by rewrite !insert_insert_eq.
Qed.

(** *** The download *)

Lemma run_await_point w sched :
  run await_point w sched =
  {| events := []; final := nth 0 sched id w; unused := tl sched;
     value := inr tt |}.
Proof. by destruct sched. Qed.

Lemma run_write_file E path w sched :
  run (write_file E path) w sched =
  match open_fault E path with
  | Some e => {| events := []; final := w; unused := sched; value := inl e |}
  | None =>
      {| events := []; final := with_files w ({[path]} ∪ files w);
         unused := sched; value := inr tt |}
  end.
Proof. cbn. by destruct (open_fault E path). Qed.

Lemma download_video_run E u p w sched :
  run (download_video E u p) w sched =
  {| events := []; final := download_final E u p w sched;
     unused := drop 2 sched; value := download_outcome E u p |}.
Proof.
  unfold download_video, download_final, download_outcome.
  rewrite run_try_except, run_async_with_client, run_bind, run_await_point.
  unfold then_run. cbn [value final unused events app].
  rewrite run_bind, run_lift. unfold then_run. cbn [value final unused events app].
  destruct (client_get E u) as [e | response]; cbn [mbind pyexc_bind].
  { by destruct sched as [| i1 [| i2 rest]]. }
  destruct (Response.raise_for_status response) as [e |].
  { by destruct sched as [| i1 [| i2 rest]]. }
  rewrite run_bind, run_write_file.
  destruct (open_fault E _) as [e |].
  { by destruct sched as [| i1 [| i2 rest]]. }
  by destruct sched as [| i1 [| i2 rest]].
Qed.

(** The download neither creates nor deletes a registry entry; only what
    happens during its two suspensions can. *)
Lemma download_keeps_entry E u p pid w sched :
  Forall (keeps_entry pid) sched ->
  is_Some (analysis_status w !! pid) ->
  is_Some (analysis_status (download_final E u p w sched) !! pid).
Proof.
  intros Hs Hw. unfold download_final.
  destruct sched as [| i1 [| i2 rest]]; cbn.
  - by destruct (download_outcome E u p).
  - apply Forall_cons in Hs as [H1 _]. apply H1 in Hw.
    by destruct (download_outcome E u p).
  - apply Forall_cons in Hs as [H1 Hs]. apply Forall_cons in Hs as [H2 _].
    apply H2. apply H1 in Hw. by destruct (download_outcome E u p).
Qed.

Lemma download_alone E u p w :
  analysis_status (download_final E u p w []) = analysis_status w.
Proof. unfold download_final. cbn. by destruct (download_outcome E u p). Qed.

(** *** The URL run, statement by statement *)

Lemma url_run_absent E p u c w sched :
  analysis_status w !! p = None ->
  run (perform_url_analysis E p u c) w sched =
  {| events := []; final := w; unused := sched; value := inl (KeyError p) |}.
Proof.
  intros Hst. unfold perform_url_analysis.
  rewrite run_try_except, run_bind, run_setattr_status, Hst.
  unfold or_handle, then_run. cbn [value final unused events].
  rewrite run_failure_writes, Hst. reflexivity.
Qed.

Lemma url_run_present E p u c w sched st :
  analysis_status w !! p = Some st ->
  let w' := download_final E u p (set_entry w p (downloading st)) sched in
  run (perform_url_analysis E p u c) w sched =
  match analysis_status w' !! p with
  | None =>
      {| events := download_events p; final := w'; unused := drop 2 sched;
         value := inl (KeyError p) |}
  | Some st' =>
      match download_outcome E u p with
      | inl e =>
          {| events := download_events p ++ failure_events p e;
             final := set_entry w' p (closed st' (inl e));
             unused := drop 2 sched; value := inr tt |}
      | inr path =>
          {| events := download_events p ++ file_run_events E p path true;
             final := with_files
                        (set_entry w' p (closed st' (analysis_verdict E p path)))
                        (file_run_files E p path true w');
             unused := drop 2 sched; value := inr tt |}
      end
  end.
Proof.
  intros Hst w'. unfold perform_url_analysis.
  rewrite run_try_except, run_bind. erewrite run_setattr_entry by eassumption.
  cbn [then_run value final unused events].
  rewrite run_bind. erewrite run_setattr_entry by apply lookup_set_entry.
  rewrite set_entry_twice. cbn [then_run value final unused events].
  rewrite run_bind, download_video_run. fold (downloading st). fold w'.
  cbn [then_run value final unused events app].
  destruct (analysis_status w' !! p) as [st' |] eqn:Hst';
    destruct (download_outcome E u p) as [e | path];
    cbn [then_run or_handle value final unused events app].
  - rewrite run_failure_writes, Hst'. reflexivity.
  - erewrite file_run_present by eassumption. reflexivity.
  - rewrite run_failure_writes, Hst'. reflexivity.
  - rewrite file_run_absent by assumption.
    cbn [then_run or_handle value final unused events app].
    rewrite run_failure_writes, Hst'. reflexivity.
Qed.
(** ** Reading a result *)

(** C8. [get_analysis_result] answers 404 for an unknown job, 400 for a job
    whose status is not "completed", and returns a report exactly when the
    job is completed and has one attached, which is then that report; it
    never changes the world. *)
Theorem get_result_only_when_completed (project_id : string) (w : World) :
  (analysis_status w !! project_id = None ->
   get_analysis_result project_id w =
   (inl {| status_code := 404; detail := "Analysis not found" |}, w)) /\
  (forall st, analysis_status w !! project_id = Some st ->
     AnalysisStatus.status st <> "completed" ->
     get_analysis_result project_id w =
     (inl {| status_code := 400; detail := "Analysis not completed yet" |}, w)) /\
  (forall r, get_analysis_result project_id w = (inr r, w) <->
     exists st, analysis_status w !! project_id = Some st /\
                AnalysisStatus.status st = "completed" /\
                AnalysisStatus.result st = Some r).
Proof.
  unfold get_analysis_result. repeat split.
  - by intros ->.
  - intros st -> Hst. apply String.eqb_neq in Hst. rewrite Hst.
    by destruct (AnalysisStatus.result st).
  - destruct (analysis_status w !! project_id) as [st |]; [| done].
    destruct (AnalysisStatus.result st) as [r' |] eqn:Hr; [| done].
    destruct (String.eqb_spec (AnalysisStatus.status st) "completed") as [Hs | Hs];
      [| done].
    intros [= ->]. by exists st.
  - intros (st & -> & Hs & ->). by rewrite Hs.
Qed.

(** ** Submitting a path that is nowhere *)






(** ** The result translator *)


Lemma mapM_inr {A B} (f : A -> PyExc + B) (l : list A) (ys : list B) :
  mapM f l = inr ys -> Forall2 (fun x y => f x = inr y) l ys.
Proof.
  revert ys. induction l as [| x l IH]; cbn; intros ys.
  - intros [= <-]. constructor.
  - destruct (f x) as [e' | y] eqn:Hx; cbn; [done |].
    destruct (mapM f l) as [e' | ys']; cbn; [done |].
    intros [= <-]. constructor; auto.
Qed.

















(** ** Occurrence counts *)


Lemma convert_to_api_format_actions E project_id analysis_result r :
  convert_to_api_format E project_id analysis_result = inr r ->
  exists action_items,
    subscript analysis_result "detected_actions" ≫= dict_items = inr action_items /\
    Forall2 (fun kv a => convert_action E kv.2 = inr a) action_items
      (PostureEventResponse.detected_actions r).
Proof.
  unfold convert_to_api_format, PostureEventResponse_init. intros H.
  cbn -[mapM] in *.
  destruct (subscript analysis_result "summary") as [| raw_summary]; [done |].
  cbn -[mapM] in *.
  destruct (subscript raw_summary "total_bad_postures") as [| tbp]; [done |].
  cbn -[mapM] in *.
  destruct (subscript raw_summary "total_duration_seconds") as [| tds]; [done |].
  cbn -[mapM] in *.
  destruct (subscript analysis_result "detected_actions") as [| raw_actions];
    [done |].
  cbn -[mapM] in *.
  destruct (dict_items raw_actions) as [| action_items]; [done |].
  cbn -[mapM] in *.
  destruct (mapM _ action_items) as [| actions] eqn:Has; [done |].
  apply mapM_inr in Has. cbn -[mapM] in *.
  destruct (validate_int E tbp); [| done]. destruct (validate_float E tds); [| done].
  inversion H; subst. cbn. by exists action_items.
Qed.



(** ** Progress within a run *)

Lemma progress_writes_app p evs evs' :
  progress_writes p (evs ++ evs') = progress_writes p evs ++ progress_writes p evs'.
Proof.
  induction evs as [| [q [] | |] evs IH]; cbn; try done.
  destruct (String.eqb q p); cbn; by rewrite IH.
Qed.

Lemma status_writes_app p evs evs' :
  status_writes p (evs ++ evs') = status_writes p evs ++ status_writes p evs'.
Proof.
  induction evs as [| [q [] | |] evs IH]; cbn; try done.
  destruct (String.eqb q p); cbn; by rewrite IH.
Qed.

Lemma progress_writes_download p : progress_writes p (download_events p) = [10].
Proof. cbn. by rewrite String.eqb_refl. Qed.

Lemma progress_writes_failure p e : progress_writes p (failure_events p e) = [100].
Proof. cbn. by rewrite String.eqb_refl. Qed.

Lemma progress_writes_file_run E p v b :
  progress_writes p (file_run_events E p v b) =
  30 :: match analyze_video_file E v with
        | inl _ => [100]
        | inr _ => [80; 100]
        end.
Proof.
  unfold file_run_events. cbn. rewrite String.eqb_refl.
  destruct (analyze_video_file E v) as [e | raw]; cbn;
    rewrite ?String.eqb_refl; [done |].
  destruct (convert_to_api_format E p raw); cbn; rewrite ?String.eqb_refl;
    [done |].
  destruct b; cbn; by rewrite ?String.eqb_refl.
Qed.


(** ** The transition table *)

Lemma status_writes_download p : status_writes p (download_events p) = [].
Proof. reflexivity. Qed.

Lemma status_writes_failure p e : status_writes p (failure_events p e) = ["failed"].
Proof. cbn. by rewrite String.eqb_refl. Qed.

Lemma status_writes_file_run E p v b :
  status_writes p (file_run_events E p v b) = [terminal_state (analysis_failure E p v)].
Proof.
  unfold file_run_events, analysis_failure. cbn.
  destruct (analyze_video_file E v) as [e | raw]; cbn;
    rewrite ?String.eqb_refl; [done |].
  destruct (convert_to_api_format E p raw); cbn; rewrite ?String.eqb_refl;
    [done |].
  destruct b; cbn; by rewrite ?String.eqb_refl.
Qed.

Lemma closed_status st E p v :
  AnalysisStatus.status (closed st (analysis_verdict E p v)) =
  terminal_state (analysis_failure E p v).
Proof.
  unfold analysis_verdict, analysis_failure.
  destruct (analyze_video_file E v) as [e | raw]; [done |]. cbn.
  by destruct (convert_to_api_format E p raw).
Qed.

Lemma closed_progress st verdict : AnalysisStatus.progress (closed st verdict) = 100.
Proof. by destruct verdict. Qed.

(** A submission that is accepted creates the entry of its job, processing
    at progress 0, and hands the job to a run. *)
Lemma accepted_submission E s w reply t w' :
  submit E s w = (inr (reply, t), w') ->
  exists message,
    analysis_status w' !! task_id t = Some (initial_status (task_id t) message) /\
    acquires t = match s with ByUrl _ => true | ByPath _ => false end.
Proof.
  destruct s as [request | request]; cbn.
  - unfold analyze_from_url. destruct (ANALYZER_AVAILABLE E); [| done].
    intros [= <- <- <-]. eexists. split; [apply lookup_insert_eq | done].
  - unfold analyze_from_file. destruct (ANALYZER_AVAILABLE E); [| done]. cbn.
    destruct (resolve_video_path E w _) as [| video_path]; [done |].
    destruct (os_path_exists w video_path); [| done].
    intros [= <- <- <-]. eexists. split; [apply lookup_insert_eq | done].
Qed.

Lemma run_follows_table E t w sched st :
  analysis_status w !! task_id t = Some st ->
  Forall (keeps_entry (task_id t)) sched ->
  let o := run (run_task E t) w sched in
  value o = inr tt /\
  progress_writes (task_id t) (events o) =
    milestones (acquires t) (first_failure E t) /\
  status_writes (task_id t) (events o) = [terminal_state (first_failure E t)] /\
  exists st',
    analysis_status (final o) !! task_id t = Some st' /\
    AnalysisStatus.status st' = terminal_state (first_failure E t) /\
    AnalysisStatus.progress st' = 100.
Proof.
  intros Hst Hsched. destruct t as [p u c | p v]; cbn [run_task task_id] in *.
  - rewrite (url_run_present _ _ _ _ _ _ _ Hst).
    destruct (download_keeps_entry E u p p (set_entry w p (downloading st)) sched)
      as [st' Hst']; [done | by rewrite lookup_set_entry |].
    rewrite Hst'. cbn [first_failure acquires].
    destruct (download_outcome E u p) as [e | path]; cbn [events value final];
      rewrite progress_writes_app, status_writes_app, progress_writes_download,
        status_writes_download.
    + rewrite progress_writes_failure, status_writes_failure.
      repeat split. eexists. split; [apply lookup_set_entry | done].
    + rewrite progress_writes_file_run, status_writes_file_run.
      split; [done |]. split.
      { unfold analysis_failure, milestones.
        destruct (analyze_video_file E path) as [| raw]; [done |].
        by destruct (convert_to_api_format E p raw). }
      split; [done |]. eexists. split; [apply lookup_insert_eq |].
      by rewrite closed_status, closed_progress.
  - rewrite (file_run_present _ _ _ _ _ _ _ Hst). cbn [events value final].
    rewrite progress_writes_file_run, status_writes_file_run.
    split; [done |]. split.
    { cbn. unfold analysis_failure.
      destruct (analyze_video_file E v) as [| raw]; [done |].
      by destruct (convert_to_api_format E p raw). }
    split; [done |]. eexists. split; [apply lookup_insert_eq |].
    by rewrite closed_status, closed_progress.
Qed.

(** C6, as the service has it. An accepted submission creates the job
    processing at progress 0. While nothing deletes its entry, the run then
    writes the progress milestones of the transition table, ends by writing
    "completed" when no phase raised and "failed" otherwise, and leaves the
    entry in that state at progress 100. A run by URL starts with progress
    10; a run on a local path has no acquisition phase: its input was
    resolved by the handler, and it goes from 0 straight to 30. *)
Theorem runs_follow_the_transition_table
    (E : Env) (s : Submission) (w : World) (reply : list (string * string))
    (t : BackgroundTask) (w' : World) (sched : list Interference) :
  submit E s w = (inr (reply, t), w') ->
  Forall (keeps_entry (task_id t)) sched ->
  let o := run (run_task E t) w' sched in
  (exists st, analysis_status w' !! task_id t = Some st /\
              AnalysisStatus.status st = "processing" /\
              AnalysisStatus.progress st = 0) /\
  acquires t = match s with ByUrl _ => true | ByPath _ => false end /\
  value o = inr tt /\
  progress_writes (task_id t) (events o) =
    milestones (acquires t) (first_failure E t) /\
  status_writes (task_id t) (events o) = [terminal_state (first_failure E t)] /\
  exists st',
    analysis_status (final o) !! task_id t = Some st' /\
    AnalysisStatus.status st' = terminal_state (first_failure E t) /\
    AnalysisStatus.progress st' = 100.
Proof.
  intros Hsubmit Hsched o.
  destruct (accepted_submission _ _ _ _ _ _ Hsubmit) as (message & Hentry & Hacq).
  split; [by eexists |]. split; [done |].
  by apply (run_follows_table E t w' sched _ Hentry).
Qed.


Lemma runs_follow_the_transition_table_witness :
  submit simple_deployment t6_submission empty_world =
    (inr (t6_reply, t6_task), t6_world) /\
  Forall (keeps_entry "t6") [] /\
  progress_writes "t6" (events (run (run_task simple_deployment t6_task) t6_world []))
    = [10; 30; 80; 100] /\
  status_writes "t6" (events (run (run_task simple_deployment t6_task) t6_world []))
    = ["completed"].
Proof.
  assert (submit simple_deployment t6_submission empty_world =
          (inr (t6_reply, t6_task), t6_world)) as Hsubmit by reflexivity.
  split; [exact Hsubmit |]. split; [constructor |].
  destruct (runs_follow_the_transition_table simple_deployment t6_submission
              empty_world t6_reply t6_task t6_world [] Hsubmit
              (List.Forall_nil (keeps_entry "t6")))
    as (_ & _ & _ & Hp & Hs & _).
  split.
  - etransitivity; [exact Hp |]. vm_compute. reflexivity.
  - etransitivity; [exact Hs |]. vm_compute. reflexivity.
Defined.

(** C6, as stated, fails: the run of a job submitted by a local path never
    sets progress 10; it writes 30, 80 and 100. *)
Lemma local_path_run_skips_progress_10 :
  let E := simple_deployment in
  let task := FileTask "t2" "/videos/talk.mp4" in
  let w := set_entry talk_world "t2"
             (initial_status "t2" "Starting analysis from local file...") in
  (exists reply,
     analyze_from_file E (talk_request "t2") talk_world = (inr (reply, task), w)) /\
  progress_writes "t2" (events (run (run_task E task) w [])) = [30; 80; 100] /\
  ~ In 10 (progress_writes "t2" (events (run (run_task E task) w []))).
Proof.
  assert (progress_writes "t2"
            (events (run (run_task simple_deployment
                            (FileTask "t2" "/videos/talk.mp4"))
                       (set_entry talk_world "t2"
                          (initial_status "t2"
                             "Starting analysis from local file...")) [])) =
          [30; 80; 100]) as Hp by (vm_compute; reflexivity).
  cbv zeta. split; [eexists; reflexivity |].
  split; [exact Hp |]. rewrite Hp. intros [H | [H | [H | []]]]; discriminate.
Qed.

(** ** Cleanup and escaping errors *)

(** The job of the scenarios below, as an accepted submission by URL leaves
    it. *)
Lemma submitted_by_url E project_id video_url w :
  ANALYZER_AVAILABLE E = true ->
  snd (analyze_from_url E (url_request project_id video_url) w) =
  set_entry w project_id
    (initial_status project_id "Starting analysis from URL...").
Proof. unfold analyze_from_url. by intros ->. Qed.

(** A run never calls [os.unlink] when the analysis or the translation
    raised: the call stands after them, inside the [try]. *)
Lemma failed_run_never_unlinks E p v b e :
  analysis_verdict E p v = inl e -> unlink_calls (file_run_events E p v b) = [].
Proof.
  unfold analysis_verdict, file_run_events.
  destruct (analyze_video_file E v) as [| raw]; [done |]. cbn.
  by destruct (convert_to_api_format E p raw).
Qed.

(** C2, on the code. Job "t5" is submitted by URL; the video is downloaded
    to a temporary file; the analyzer raises. The run ends, the job is
    failed, [os.unlink] was never called and the temporary file is still
    there. (With an analyzer that succeeds, the same run deletes it.) *)
Theorem failed_analysis_leaves_the_download :
  let temp := "/srv/posture/temp/video_t5_3f2a9c51.mp4" in
  let w := snd (analyze_from_url broken_video_deployment
                  (url_request "t5" "http://videos/talk.mp4") empty_world) in
  let o := run (perform_url_analysis broken_video_deployment "t5"
                  "http://videos/talk.mp4" None) w [] in
  let o' := run (perform_url_analysis simple_deployment "t5"
                   "http://videos/talk.mp4" None) w [] in
  download_outcome broken_video_deployment "http://videos/talk.mp4" "t5" = inr temp /\
  value o = inr tt /\
  AnalysisStatus.status <$> analysis_status (final o) !! "t5" = Some "failed" /\
  unlink_calls (events o) = [] /\
  os_path_exists (final o) temp = true /\
  unlink_calls (events o') = [temp] /\
  os_path_exists (final o') temp = false.
Proof. vm_compute. repeat split. Qed.

(** C4, on the code. Job "t4" is submitted by URL and deleted while its
    video downloads. When the run resumes, its first write raises
    [KeyError]; so does the write of each [except] clause that catches it;
    the [KeyError] leaves the run, and no failed job is recorded. *)
Theorem deleted_job_error_escapes_the_run :
  let w := snd (analyze_from_url simple_deployment
                  (url_request "t4" "http://videos/talk.mp4") empty_world) in
  let o := run (perform_url_analysis simple_deployment "t4"
                  "http://videos/talk.mp4" None) w
             [during (delete_analysis "t4")] in
  value o = inl (KeyError "t4") /\
  analysis_status (final o) !! "t4" = None /\
  status_writes "t4" (events o) = [].
Proof. vm_compute. repeat split. Qed.

(** ** Two runs on one job *)

Lemma message_writes_app p evs evs' :
  message_writes p (evs ++ evs') = message_writes p evs ++ message_writes p evs'.
Proof.
  induction evs as [| [q [] | |] evs IH]; cbn; try done.
  destruct (String.eqb q p); cbn; by rewrite IH.
Qed.

Lemma result_writes_app p evs evs' :
  result_writes p (evs ++ evs') = result_writes p evs ++ result_writes p evs'.
Proof.
  induction evs as [| [q [] | |] evs IH]; cbn; try done.
  destruct (String.eqb q p); cbn; by rewrite IH.
Qed.

Lemma own_state_failure p e st evs :
  status_writes p evs = [] ->
  own_state p (evs ++ failure_events p e) (closed st (inl e)).
Proof.
  intros Hs. unfold own_state.
  rewrite status_writes_app, progress_writes_app, message_writes_app, Hs.
  cbn. rewrite !String.eqb_refl. rewrite !last_app_cons. by repeat split.
Qed.

Lemma own_state_file_run E p v b st evs :
  status_writes p evs = [] ->
  own_state p (evs ++ file_run_events E p v b) (closed st (analysis_verdict E p v)).
Proof.
  intros Hs. unfold own_state, file_run_events, analysis_verdict.
  rewrite status_writes_app, progress_writes_app, message_writes_app,
    result_writes_app, Hs.
  destruct (analyze_video_file E v) as [e | raw]; cbn -[convert_to_api_format].
  { rewrite !String.eqb_refl. rewrite !last_app_cons. by repeat split. }
  rewrite !String.eqb_refl.
  destruct (convert_to_api_format E p raw) as [e | r]; cbn.
  { rewrite !String.eqb_refl. rewrite !last_app_cons. by repeat split. }
  destruct b; cbn; rewrite !String.eqb_refl; rewrite !last_app_cons;
    repeat split; try done; intros _; by exists r.
Qed.

Lemma status_writes_download_events p : status_writes p (download_events p) = [].
Proof. reflexivity. Qed.

(** A run that ends without an escaping exception leaves its own terminal
    state in the entry, whatever the entry held and whatever happened
    while the run was suspended. *)
Lemma ended_run_owns_the_entry E t w sched :
  let o := run (run_task E t) w sched in
  value o = inr tt ->
  exists st, analysis_status (final o) !! task_id t = Some st /\
             own_state (task_id t) (events o) st /\
             In (AnalysisStatus.status st) ["completed"; "failed"].
Proof.
  destruct t as [p u c | p v]; cbn [run_task task_id].
  - destruct (analysis_status w !! p) as [st |] eqn:Hst.
    + rewrite (url_run_present _ _ _ _ _ _ _ Hst).
      destruct (analysis_status (download_final E u p _ sched) !! p) as [st' |];
        [| done].
      destruct (download_outcome E u p) as [e | path]; cbn [events value final];
        intros _; eexists.
      * split; [apply lookup_set_entry |].
        split; [by apply own_state_failure | cbn; tauto].
      * split; [apply lookup_insert_eq |].
        split; [by apply own_state_file_run |].
        destruct (analysis_verdict E p path); cbn; tauto.
    + by rewrite url_run_absent.
  - destruct (analysis_status w !! p) as [st |] eqn:Hst.
    + rewrite (file_run_present _ _ _ _ _ _ _ Hst). cbn [events value final].
      intros _. eexists. split; [apply lookup_insert_eq |].
      split; [by apply (own_state_file_run E p v false st []) |].
      destruct (analysis_verdict E p v); cbn; tauto.
    + by rewrite file_run_absent.
Qed.




(** ** Reading a job *)

Lemma download_leaves_entry E u p pid w sched :
  Forall (leaves_entry pid) sched ->
  analysis_status (download_final E u p w sched) !! pid = analysis_status w !! pid.
Proof.
  intros Hs. unfold download_final.
  destruct sched as [| i1 [| i2 rest]]; cbn.
  - by destruct (download_outcome E u p).
  - apply Forall_cons in Hs as [H1 _]. rewrite <- (H1 w).
    by destruct (download_outcome E u p).
  - apply Forall_cons in Hs as [H1 Hs]. apply Forall_cons in Hs as [H2 _].
    rewrite H2, <- (H1 w). by destruct (download_outcome E u p).
Qed.

(** C10, as the service has it. [get_analysis_status] returns the whole
    stored record of a known job, report included, and changes nothing. A
    run that ends with the job completed has attached its report, so the
    report can be read through get-status from then on. And while no other
    run or request touches the entry of a job submitted without a report,
    its record carries a report only when its status is "completed". *)
Theorem get_status_returns_the_whole_record
    (E : Env) (t : BackgroundTask) (w : World) (sched : list Interference) :
  let o := run (run_task E t) w sched in
  (forall st, analysis_status w !! task_id t = Some st ->
     get_analysis_status (task_id t) w = (inr st, w)) /\
  (forall st', value o = inr tt ->
     get_analysis_status (task_id t) (final o) = (inr st', final o) ->
     AnalysisStatus.status st' = "completed" ->
     exists r, AnalysisStatus.result st' = Some r /\
               last (result_writes (task_id t) (events o)) = Some r) /\
  (forall st st', analysis_status w !! task_id t = Some st ->
     AnalysisStatus.result st = None ->
     Forall (leaves_entry (task_id t)) sched ->
     get_analysis_status (task_id t) (final o) = (inr st', final o) ->
     is_Some (AnalysisStatus.result st') ->
     AnalysisStatus.status st' = "completed").
Proof.
  intros o. split; [| split].
  - intros st Hst. unfold get_analysis_status. by rewrite Hst.
  - intros st' Hval Hget Hdone.
    destruct (ended_run_owns_the_entry E t w sched Hval) as (st & Hst & Hown & _).
    unfold get_analysis_status in Hget. fold o in Hst. rewrite Hst in Hget.
    injection Hget as <-. destruct Hown as (_ & _ & _ & Hres). by apply Hres.
  - intros st st' Hst Hnone Hsched Hget [r Hr].
    unfold get_analysis_status in Hget.
    destruct (analysis_status (final o) !! task_id t) as [st'' |] eqn:Hfinal;
      [| done].
    injection Hget as ->. subst o.
    destruct t as [p u c | p v]; cbn [run_task task_id] in *.
    + rewrite (url_run_present _ _ _ _ _ _ _ Hst) in Hfinal.
      rewrite (download_leaves_entry _ _ _ _ _ _ Hsched), lookup_set_entry in Hfinal.
      destruct (download_outcome E u p) as [e | path]; cbn in Hfinal;
        rewrite lookup_insert_eq in Hfinal; injection Hfinal as <-.
      * cbn in Hr. congruence.
      * destruct (analysis_verdict E p path); [cbn in Hr; congruence | done].
    + rewrite (file_run_present _ _ _ _ _ _ _ Hst) in Hfinal. cbn in Hfinal.
      rewrite lookup_insert_eq in Hfinal. injection Hfinal as <-.
      destruct (analysis_verdict E p v); [cbn in Hr; congruence | done].
Qed.

Lemma get_status_returns_the_whole_record_witness :
  exists st r,
    get_analysis_status "t6"
      (final (run (run_task simple_deployment t6_task) t6_world [])) =
    (inr st, final (run (run_task simple_deployment t6_task) t6_world [])) /\
    AnalysisStatus.status st = "completed" /\
    AnalysisStatus.result st = Some r.
Proof.
  destruct (get_status_returns_the_whole_record simple_deployment t6_task
              t6_world []) as (_ & Hdone & _).
  eexists. 
  destruct (Hdone _ ltac:(vm_compute; reflexivity) ltac:(vm_compute; reflexivity)
              eq_refl) as (r & Hr & _).
  exists r. split; [vm_compute; reflexivity |]. split; [reflexivity | exact Hr].
Defined.

(** C10, as stated, fails on its "only when". Job "t9" is submitted twice
    by URL, the second time while the first run downloads; the first run
    ends first and completes the job with its report; then the second run
    ends, failed, and its [except] clause leaves the report where it is.
    get-status now returns a record that is failed and carries a report. *)
Lemma failed_job_with_a_report :
  let w := seg_world (snd (overlapping_runs false)) in
  seg_rest (fst (overlapping_runs false)) = inr (inr tt) /\
  seg_rest (snd (overlapping_runs false)) = inr (inr tt) /\
  exists st r,
    get_analysis_status "t9" w = (inr st, w) /\
    AnalysisStatus.status st = "failed" /\
    AnalysisStatus.result st = Some r.
Proof.
  cbv zeta. split; [vm_compute; reflexivity |]. split; [vm_compute; reflexivity |].
  eexists _, _. split; [vm_compute; reflexivity |]. by split.
Qed.


(** * More properties of the service *)

(** ** Downloads *)

(** X1. Whatever goes wrong in a download, [download_video] raises a plain
    [Exception] whose text is "Failed to download video: " followed by the
    text of the cause: the exception of the HTTP request, the error status
    of the response, or the failure to open the temporary file. *)
Theorem download_failure_is_wrapped
    (E : Env) (video_url project_id : string) (w : World)
    (sched : list Interference) (e : PyExc) :
  value (run (download_video E video_url project_id) w sched) = inl e ->
  exists cause,
    e = Exception ("Failed to download video: " +:+ str_exc cause) /\
    (client_get E video_url = inl cause \/
     exists response,
       client_get E video_url = inr response /\
       (Response.raise_for_status response = Some cause \/
        Response.raise_for_status response = None /\
        open_fault E
          (temp_path E project_id (Response.content_type response)) =
        Some cause)).
Proof.
  rewrite download_video_run. cbn [value]. unfold download_outcome.
  destruct (client_get E video_url) as [cause | response]; cbn.
  { intros [= <-]. exists cause. auto. }
  destruct (Response.raise_for_status response) as [cause |] eqn:Hstatus.
  { intros [= <-]. exists cause. split; [done |]. right. exists response. auto. }
  destruct (open_fault E _) as [cause |] eqn:Hopen; [| done].
  intros [= <-]. exists cause. split; [done |]. right. exists response. auto.
Qed.

Lemma download_failure_is_wrapped_witness :
  exists cause,
    Exception "Failed to download video: timed out" =
    Exception ("Failed to download video: " +:+ str_exc cause).
Proof.
  destruct (download_failure_is_wrapped two_sources "http://videos/gone.mp4" "t9"
              empty_world [] (Exception "Failed to download video: timed out"))
    as (cause & Hcause & _); [reflexivity |].
  by exists cause.
Defined.

(** X2. When the HTTP request of a job submitted by URL fails, or is
    answered with an error status, the run, left alone, ends with the job
    failed at progress 100 and the message "Analysis failed: Failed to
    download video: <cause>"; it wrote no file, deleted none, never called
    the analyzer, and left the report of the entry as it was. The job has
    an entry when the run starts. *)
Theorem http_failure_fails_the_job_and_writes_no_file
    (E : Env) (project_id video_url : string) (callback_url : option string)
    (w : World) (st : AnalysisStatus.t) (cause : PyExc) :
  analysis_status w !! project_id = Some st ->
  (client_get E video_url = inl cause \/
   exists response, client_get E video_url = inr response /\
                    Response.raise_for_status response = Some cause) ->
  let o := run (perform_url_analysis E project_id video_url callback_url) w [] in
  value o = inr tt /\
  files (final o) = files w /\
  analyze_calls (events o) = [] /\
  unlink_calls (events o) = [] /\
  exists st',
    analysis_status (final o) !! project_id = Some st' /\
    AnalysisStatus.status st' = "failed" /\
    AnalysisStatus.progress st' = 100 /\
    AnalysisStatus.message st' =
      Some ("Analysis failed: Failed to download video: " +:+ str_exc cause) /\
    AnalysisStatus.result st' = AnalysisStatus.result st.
Proof.
  intros Hst Hcause o. subst o.
  assert (download_outcome E video_url project_id =
          inl (Exception ("Failed to download video: " +:+ str_exc cause))) as Hout.
  { unfold download_outcome.
    destruct Hcause as [-> | (response & -> & Hstatus)]; cbn; [done |].
    by rewrite Hstatus. }
  rewrite (url_run_present _ _ _ _ _ _ _ Hst).
  unfold download_final. rewrite Hout. cbn.
  rewrite lookup_insert_eq. cbn. rewrite lookup_insert_eq.
  repeat split. eexists. by repeat split.
Qed.

Lemma http_failure_fails_the_job_and_writes_no_file_witness :
  let w := set_entry empty_world "t9"
             (initial_status "t9" "Starting analysis from URL...") in
  files (final (run (perform_url_analysis two_sources "t9"
                       "http://videos/gone.mp4" None) w [])) = files w.
Proof.
  apply (http_failure_fails_the_job_and_writes_no_file two_sources "t9"
           "http://videos/gone.mp4" None _
           (initial_status "t9" "Starting analysis from URL...")
           (ForeignError "ConnectTimeout" "timed out")).
  - reflexivity.
  - left. reflexivity.
Defined.





(** ** What a run does and does not do *)

Lemma unlink_calls_file_run E p v b :
  unlink_calls (file_run_events E p v b) =
  match analysis_verdict E p v with
  | inl _ => []
  | inr _ => if b then [v] else []
  end.
Proof.
  unfold file_run_events, analysis_verdict.
  destruct (analyze_video_file E v) as [| raw]; [done |]. cbn.
  destruct (convert_to_api_format E p raw); [done |]. by destruct b.
Qed.

Lemma analyze_calls_file_run E p v b : analyze_calls (file_run_events E p v b) = [v].
Proof.
  unfold file_run_events.
  destruct (analyze_video_file E v) as [| raw]; [done |]. cbn.
  destruct (convert_to_api_format E p raw); [done |]. by destruct b.
Qed.

Lemma written_jobs_file_run E p v b :
  Forall (fun q => q = p) (written_jobs (file_run_events E p v b)).
Proof.
  unfold file_run_events.
  destruct (analyze_video_file E v) as [| raw]; [cbn; by repeat constructor |].
  destruct (convert_to_api_format E p raw); [cbn; by repeat constructor |].
  destruct b; cbn; by repeat constructor.
Qed.

Lemma written_jobs_app evs evs' :
  written_jobs (evs ++ evs') = written_jobs evs ++ written_jobs evs'.
Proof. induction evs as [| [] evs IH]; cbn; by rewrite ?IH. Qed.

Lemma analyze_calls_app evs evs' :
  analyze_calls (evs ++ evs') = analyze_calls evs ++ analyze_calls evs'.
Proof. induction evs as [| [] evs IH]; cbn; by rewrite ?IH. Qed.

Lemma unlink_calls_app evs evs' :
  unlink_calls (evs ++ evs') = unlink_calls evs ++ unlink_calls evs'.
Proof. induction evs as [| [] evs IH]; cbn; by rewrite ?IH. Qed.

Lemma files_after_unlink_gone E w path :
  unlink_fault E path = None ->
  path ∉ files_after_unlink E w path \/ os_path_exists w path = false.
Proof.
  unfold files_after_unlink. intros ->.
  destruct (os_path_exists w path); [left; set_solver | by right].
Qed.

(** X4. Failing to delete the temporary file never fails a job: when the
    analysis and the translation succeeded, a run on a temporary file ends
    with the job completed and the report attached, having called
    [os.unlink] once, on that file, whether that call raised or not; and
    when it did not raise, the file is gone. The run creates no file. *)
Theorem cleanup_failure_never_fails_the_job
    (E : Env) (project_id video_path : string) (w : World)
    (sched : list Interference) (st : AnalysisStatus.t)
    (r : PostureEventResponse.t) :
  analysis_status w !! project_id = Some st ->
  analysis_verdict E project_id video_path = inr r ->
  let o := run (perform_file_analysis E project_id video_path true) w sched in
  value o = inr tt /\
  unlink_calls (events o) = [video_path] /\
  files (final o) ⊆ files w /\
  (unlink_fault E video_path = None -> os_path_exists (final o) video_path = false) /\
  exists st',
    analysis_status (final o) !! project_id = Some st' /\
    AnalysisStatus.status st' = "completed" /\
    AnalysisStatus.progress st' = 100 /\
    AnalysisStatus.result st' = Some r.
Proof.
  intros Hst Hr o. subst o. rewrite (file_run_present _ _ _ _ _ _ _ Hst).
  cbn [value events final]. rewrite unlink_calls_file_run.
  unfold file_run_files. rewrite Hr. cbn.
  split; [done |]. split; [done |]. split.
  { unfold files_after_unlink. destruct (unlink_fault E video_path); [done |].
    destruct (os_path_exists w video_path); set_solver. }
  split.
  { intros Hok. unfold os_path_exists. cbn.
    destruct (files_after_unlink_gone E w video_path Hok) as [Hgone | Habsent].
    - rewrite bool_decide_eq_false_2 by done. apply andb_false_r.
    - unfold files_after_unlink. rewrite Hok, Habsent. exact Habsent. }
  rewrite lookup_insert_eq. eexists. by repeat split.
Qed.

Lemma cleanup_failure_never_fails_the_job_witness :
  let w := set_entry talk_world "t2"
             (initial_status "t2" "Starting analysis from URL...") in
  value (run (perform_file_analysis locked_temp_deployment "t2"
                "/videos/talk.mp4" true) w []) = inr tt.
Proof.
  refine (proj1 (cleanup_failure_never_fails_the_job locked_temp_deployment "t2"
                   "/videos/talk.mp4" _ []
                   (initial_status "t2" "Starting analysis from URL...")
                   _ _ _)).
  - reflexivity.
  - vm_compute. reflexivity.
Defined.

(** X5. The run of a job submitted by a local path never deletes
    anything: it does not call [os.unlink], and it leaves the files as they
    were, whether the job completes, fails, or is gone. *)
Theorem local_video_is_never_deleted
    (E : Env) (project_id video_path : string) (w : World)
    (sched : list Interference) :
  let o := run (run_task E (FileTask project_id video_path)) w sched in
  unlink_calls (events o) = [] /\ files (final o) = files w.
Proof.
  cbn [run_task]. destruct (analysis_status w !! project_id) as [st |] eqn:Hst.
  - rewrite (file_run_present _ _ _ _ _ _ _ Hst). cbn [events final].
    rewrite unlink_calls_file_run. unfold file_run_files.
    by destruct (analysis_verdict E project_id video_path).
  - by rewrite file_run_absent.
Qed.

(** X6. A run writes on the entry of its own job only, and the entry of
    any other job is after the run what it was before, as long as what
    happens during the suspensions of the run leaves that entry alone. *)
Theorem run_writes_only_its_own_job
    (E : Env) (t : BackgroundTask) (w : World) (sched : list Interference) :
  let o := run (run_task E t) w sched in
  Forall (fun project_id => project_id = task_id t) (written_jobs (events o)) /\
  (forall other, other <> task_id t ->
     Forall (leaves_entry other) sched ->
     analysis_status (final o) !! other = analysis_status w !! other).
Proof.
  destruct t as [p u c | p v]; cbn [run_task task_id].
  - destruct (analysis_status w !! p) as [st |] eqn:Hst.
    + rewrite (url_run_present _ _ _ _ _ _ _ Hst).
      assert (forall other, other <> p -> Forall (leaves_entry other) sched ->
                analysis_status (download_final E u p
                                   (set_entry w p (downloading st)) sched)
                  !! other = analysis_status w !! other) as Hother.
      { intros other Hne Hs. rewrite download_leaves_entry by done.
        cbn. by rewrite lookup_insert_ne. }
      destruct (analysis_status (download_final E u p _ sched) !! p) as [st' |].
      * destruct (download_outcome E u p) as [e | path]; cbn [events final];
          rewrite written_jobs_app; split.
        -- cbn. by repeat constructor.
        -- intros other Hne Hs. cbn. rewrite lookup_insert_ne by done. auto.
        -- apply Forall_app. split; [cbn; by repeat constructor |].
           apply written_jobs_file_run.
        -- intros other Hne Hs. cbn. rewrite lookup_insert_ne by done. auto.
      * cbn [events final]. split; [cbn; by repeat constructor | done].
    + rewrite url_run_absent by done. cbn. split; [constructor | done].
  - destruct (analysis_status w !! p) as [st |] eqn:Hst.
    + rewrite (file_run_present _ _ _ _ _ _ _ Hst). cbn [events final].
      split; [apply written_jobs_file_run |].
      intros other Hne _. cbn. by rewrite lookup_insert_ne.
    + rewrite file_run_absent by done. cbn. split; [constructor | done].
Qed.

(** X7. A run calls the analyzer at most once: the run of a job submitted
    by path on the path it was started with, the run of a job submitted by
    URL on the file its download returned, and so not at all when the
    download failed. *)
Theorem analyzer_is_called_at_most_once
    (E : Env) (t : BackgroundTask) (w : World) (sched : list Interference) :
  let o := run (run_task E t) w sched in
  analyze_calls (events o) = [] \/
  exists video_path,
    analyze_calls (events o) = [video_path] /\
    match t with
    | FileTask _ v => video_path = v
    | UrlTask p u _ => download_outcome E u p = inr video_path
    end.
Proof.
  destruct t as [p u c | p v]; cbn [run_task].
  - destruct (analysis_status w !! p) as [st |] eqn:Hst.
    + rewrite (url_run_present _ _ _ _ _ _ _ Hst).
      destruct (analysis_status (download_final E u p _ sched) !! p) as [st' |];
        [| by left].
      destruct (download_outcome E u p) as [e | path]; cbn [events];
        rewrite analyze_calls_app; [by left |].
      right. exists path. by rewrite analyze_calls_file_run.
    + rewrite url_run_absent by done. by left.
  - destruct (analysis_status w !! p) as [st |] eqn:Hst.
    + rewrite (file_run_present _ _ _ _ _ _ _ Hst). cbn [events].
      right. exists v. by rewrite analyze_calls_file_run.
    + rewrite file_run_absent by done. by left.
Qed.

(** X8. The only exception that can leave a run is the [KeyError] of its
    own project identifier, and then the job has no entry in the registry:
    every other error is turned into a failed job. *)
Theorem only_a_missing_entry_escapes
    (E : Env) (t : BackgroundTask) (w : World) (sched : list Interference)
    (e : PyExc) :
  value (run (run_task E t) w sched) = inl e ->
  e = KeyError (task_id t) /\
  analysis_status (final (run (run_task E t) w sched)) !! task_id t = None.
Proof.
  destruct t as [p u c | p v]; cbn [run_task task_id].
  - destruct (analysis_status w !! p) as [st |] eqn:Hst.
    + rewrite (url_run_present _ _ _ _ _ _ _ Hst).
      destruct (analysis_status (download_final E u p _ sched) !! p) as [st' |]
        eqn:Hst'.
      * by destruct (download_outcome E u p).
      * cbn. by intros [= <-].
    + rewrite url_run_absent by done. cbn. by intros [= <-].
  - destruct (analysis_status w !! p) as [st |] eqn:Hst.
    + by rewrite (file_run_present _ _ _ _ _ _ _ Hst).
    + rewrite file_run_absent by done. cbn. by intros [= <-].
Qed.

Lemma only_a_missing_entry_escapes_witness :
  let w := set_entry empty_world "t4"
             (initial_status "t4" "Starting analysis from URL...") in
  analysis_status
    (final (run (run_task simple_deployment
                   (UrlTask "t4" "http://videos/talk.mp4" None)) w
              [during (delete_analysis "t4")])) !! "t4" = None.
Proof.
  refine (proj2 (only_a_missing_entry_escapes simple_deployment
                   (UrlTask "t4" "http://videos/talk.mp4" None) _
                   [during (delete_analysis "t4")] (KeyError "t4") _)).
  vm_compute. reflexivity.
Defined.

(** X9. A run sets the status of its job at most once, and only to
    "completed" or "failed": exactly once when it ends without an escaping
    exception, and not at all otherwise. It never sets it back to
    "processing". *)
Theorem status_is_written_once_at_the_end
    (E : Env) (t : BackgroundTask) (w : World) (sched : list Interference) :
  let o := run (run_task E t) w sched in
  match value o with
  | inr _ => status_writes (task_id t) (events o) = ["completed"] \/
             status_writes (task_id t) (events o) = ["failed"]
  | inl _ => status_writes (task_id t) (events o) = []
  end.
Proof.
  destruct t as [p u c | p v]; cbn [run_task task_id].
  - destruct (analysis_status w !! p) as [st |] eqn:Hst.
    + rewrite (url_run_present _ _ _ _ _ _ _ Hst).
      destruct (analysis_status (download_final E u p _ sched) !! p) as [st' |];
        [| done].
      destruct (download_outcome E u p) as [e | path]; cbn [events value];
        rewrite status_writes_app.
      * rewrite status_writes_failure. by right.
      * rewrite status_writes_file_run.
        destruct (analysis_failure E p path); cbn; auto.
    + by rewrite url_run_absent.
  - destruct (analysis_status w !! p) as [st |] eqn:Hst.
    + rewrite (file_run_present _ _ _ _ _ _ _ Hst). cbn [events value].
      rewrite status_writes_file_run. destruct (analysis_failure E p v); cbn; auto.
    + by rewrite file_run_absent.
Qed.

(** X10. A job whose analysis or translation raised [e] ends failed at
    progress 100 with the message "Analysis failed: " followed by the text
    of [e], whatever [e] is; its project identifier and the report its
    entry may already carry are left as they were. *)
Theorem failed_job_carries_the_error_text
    (E : Env) (project_id video_path : string) (is_temp_file : bool)
    (w : World) (sched : list Interference) (st : AnalysisStatus.t) (e : PyExc) :
  analysis_status w !! project_id = Some st ->
  analysis_verdict E project_id video_path = inl e ->
  analysis_status
    (final (run (perform_file_analysis E project_id video_path is_temp_file)
              w sched)) !! project_id =
  Some {| AnalysisStatus.project_id := AnalysisStatus.project_id st;
          AnalysisStatus.status := "failed";
          AnalysisStatus.progress := 100;
          AnalysisStatus.message := Some ("Analysis failed: " +:+ str_exc e);
          AnalysisStatus.result := AnalysisStatus.result st |}.
Proof.
  intros Hst He. rewrite (file_run_present _ _ _ _ _ _ _ Hst), He. cbn.
  apply lookup_insert_eq.
Qed.

Lemma failed_job_carries_the_error_text_witness :
  let w := set_entry talk_world "t5"
             (initial_status "t5" "Starting analysis from local file...") in
  AnalysisStatus.message <$>
    analysis_status
      (final (run (perform_file_analysis broken_video_deployment "t5"
                     "/videos/talk.mp4" false) w [])) !! "t5" =
  Some (Some "Analysis failed: cannot open video").
Proof.
  cbv zeta.
  rewrite (failed_job_carries_the_error_text broken_video_deployment "t5"
             "/videos/talk.mp4" false _ []
             (initial_status "t5" "Starting analysis from local file...")
             (ForeignError "RuntimeError" "cannot open video")); reflexivity.
Defined.


(** ** Submitting, reading and deleting a job *)

(** X11. Without the analyzer module, every submission, by URL or by path,
    is refused with 503 before anything else is looked at (so even a path
    that resolves nowhere gets 503, not 404); no job is created and no run
    started. *)
Theorem submissions_need_the_analyzer (E : Env) (s : Submission) (w : World) :
  ANALYZER_AVAILABLE E = false ->
  submit E s w =
    (inl {| status_code := 503; detail := "Posture analyzer not available" |}, w) /\
  settled E (submit E s w) = w.
Proof.
  intros Hno. assert (submit E s w =
    (inl {| status_code := 503; detail := "Posture analyzer not available" |}, w))
    as Heq.
  { destruct s; cbn; unfold analyze_from_url, analyze_from_file; by rewrite Hno. }
  by rewrite Heq.
Qed.

Lemma submissions_need_the_analyzer_witness :
  fst (analyze_from_file no_analyzer_deployment t1_request empty_world) =
  inl {| status_code := 503; detail := "Posture analyzer not available" |}.
Proof.
  change (analyze_from_file no_analyzer_deployment t1_request)
    with (submit no_analyzer_deployment (ByPath t1_request)).
  by rewrite (proj1 (submissions_need_the_analyzer no_analyzer_deployment
                       (ByPath t1_request) empty_world eq_refl)).
Defined.

Lemma find_first {A} (P : A -> bool) (l : list A) (x : A) :
  find P l = Some x ->
  P x = true /\
  exists before after, l = before ++ x :: after /\
                       Forall (fun y => P y = false) before.
Proof.
  induction l as [| y l IH]; cbn; [done |].
  destruct (P y) eqn:Hy.
  - intros [= ->]. split; [done |]. exists [], l. by split.
  - intros Hfind. destruct (IH Hfind) as (Hx & before & after & -> & Hbefore).
    split; [done |]. exists (y :: before), after. split; [done |].
    by constructor.
Qed.

(** X12. A job accepted by path is started on a file that exists: the
    requested path itself when it is absolute, and otherwise the first of
    the three candidates (the path as given, under the upload directory,
    under the working directory) that exists. The reply tells that path. *)
Theorem accepted_path_is_the_first_that_exists
    (E : Env) (request : DirectAnalysisRequest.t) (w : World)
    (reply : list (string * string)) (t : BackgroundTask) (w' : World) :
  analyze_from_file E request w = (inr (reply, t), w') ->
  exists video_path,
    t = FileTask (DirectAnalysisRequest.project_id request) video_path /\
    In ("video_path", video_path) reply /\
    os_path_exists w video_path = true /\
    if isabs E (DirectAnalysisRequest.video_path request)
    then video_path = DirectAnalysisRequest.video_path request
    else exists before after,
           potential_paths E (DirectAnalysisRequest.video_path request) =
             before ++ video_path :: after /\
           Forall (fun path => os_path_exists w path = false) before.
Proof.
  unfold analyze_from_file. destruct (ANALYZER_AVAILABLE E); [| done]. cbn [negb].
  destruct (resolve_video_path E w _) as [| video_path] eqn:Hresolve; [done |].
  destruct (os_path_exists w video_path) eqn:Hexists; [| done]. cbn [negb].
  intros [= <- <- <-]. exists video_path. split; [done |].
  split; [cbn; tauto |]. split; [done |].
  unfold resolve_video_path in Hresolve.
  destruct (isabs E (DirectAnalysisRequest.video_path request));
    cbn [negb] in Hresolve.
  - by injection Hresolve as <-.
  - destruct (find (os_path_exists w) _) as [path |] eqn:Hfind; [| done].
    destruct (String.eqb path ""); [done |]. injection Hresolve as ->.
    apply find_first in Hfind as (_ & before & after & Heq & Hbefore). eauto.
Qed.

Lemma accepted_path_is_the_first_that_exists_witness :
  exists reply w',
    analyze_from_file simple_deployment
      {| DirectAnalysisRequest.project_id := "t2";
         DirectAnalysisRequest.video_path := "talk.mp4" |} two_copies_world =
    (inr (reply, FileTask "t2" "/srv/posture/uploads/talk.mp4"), w').
Proof.
  destruct (analyze_from_file simple_deployment
              {| DirectAnalysisRequest.project_id := "t2";
                 DirectAnalysisRequest.video_path := "talk.mp4" |}
              two_copies_world) as [[| [reply t]] w'] eqn:Hsubmit;
    [vm_compute in Hsubmit; discriminate |].
  destruct (accepted_path_is_the_first_that_exists _ _ _ _ _ _ Hsubmit)
    as (path & -> & _ & _ & _).
  exists reply, w'. vm_compute in Hsubmit. injection Hsubmit as <- <- <-.
  reflexivity.
Defined.

(** X13. Deleting a known job removes its entry and nothing else: the
    other jobs and the files stay, and from then on get-status, get-result
    and a second delete of that job answer 404. Deleting an unknown job
    answers 404 and changes nothing. *)
Theorem delete_removes_exactly_one_job (project_id : string) (w : World) :
  match analysis_status w !! project_id with
  | Some _ =>
      exists w',
        delete_analysis project_id w =
          (inr [("message", "Analysis deleted successfully")], w') /\
        analysis_status w' !! project_id = None /\
        (forall other, other <> project_id ->
           analysis_status w' !! other = analysis_status w !! other) /\
        files w' = files w /\
        size (analysis_status w) = S (size (analysis_status w')) /\
        fst (get_analysis_status project_id w') =
          inl {| status_code := 404; detail := "Analysis not found" |} /\
        fst (get_analysis_result project_id w') =
          inl {| status_code := 404; detail := "Analysis not found" |} /\
        delete_analysis project_id w' =
          (inl {| status_code := 404; detail := "Analysis not found" |}, w')
  | None =>
      delete_analysis project_id w =
        (inl {| status_code := 404; detail := "Analysis not found" |}, w)
  end.
Proof.
  unfold delete_analysis, get_analysis_status, get_analysis_result.
  destruct (analysis_status w !! project_id) as [st |] eqn:Hst; [| done].
  eexists. split; [reflexivity |]. cbn. rewrite lookup_delete_eq.
  repeat split.
  - intros other Hne. by rewrite lookup_delete_ne.
  - rewrite <- (insert_delete_id _ _ _ Hst) at 1.
    apply map_size_insert_None, lookup_delete_eq.
Qed.

(** X14. A job that was just accepted reads as processing at progress 0,
    with no report, whatever its identifier stood for before: get-status
    returns that fresh record, get-result answers 400, and the reply names
    the two addresses to poll. The submission touches neither the other
    jobs nor the files. *)
Theorem accepted_job_reads_as_processing
    (E : Env) (s : Submission) (w : World) (reply : list (string * string))
    (t : BackgroundTask) (w' : World) :
  submit E s w = (inr (reply, t), w') ->
  (exists message,
     get_analysis_status (task_id t) w' =
       (inr {| AnalysisStatus.project_id := task_id t;
               AnalysisStatus.status := "processing";
               AnalysisStatus.progress := 0;
               AnalysisStatus.message := Some message;
               AnalysisStatus.result := None |}, w')) /\
  get_analysis_result (task_id t) w' =
    (inl {| status_code := 400; detail := "Analysis not completed yet" |}, w') /\
  In ("status_url", "/status/" +:+ task_id t) reply /\
  In ("result_url", "/result/" +:+ task_id t) reply /\
  (forall other, other <> task_id t ->
     analysis_status w' !! other = analysis_status w !! other) /\
  files w' = files w.
Proof.
  intros Hsubmit.
  assert (exists message,
            w' = set_entry w (task_id t) (initial_status (task_id t) message) /\
            In ("status_url", "/status/" +:+ task_id t) reply /\
            In ("result_url", "/result/" +:+ task_id t) reply)
    as (message & -> & Hstatus & Hresult).
  { destruct s as [request | request]; cbn in Hsubmit.
    - unfold analyze_from_url in Hsubmit.
      destruct (ANALYZER_AVAILABLE E); [| done]. cbn in Hsubmit.
      injection Hsubmit as <- <- <-. eexists. split; [done |]. cbn. tauto.
    - unfold analyze_from_file in Hsubmit.
      destruct (ANALYZER_AVAILABLE E); [| done]. cbn [negb] in Hsubmit.
      destruct (resolve_video_path E w _) as [| video_path]; [done |].
      destruct (os_path_exists w video_path); [| done]. cbn [negb] in Hsubmit.
      injection Hsubmit as <- <- <-. eexists. split; [done |]. cbn. tauto. }
  unfold get_analysis_status, get_analysis_result. rewrite lookup_set_entry.
  split; [by exists message |]. repeat split; try done.
  intros other Hne. cbn. by rewrite lookup_insert_ne.
Qed.

Lemma accepted_job_reads_as_processing_witness :
  get_analysis_result "t6" t6_world =
  (inl {| status_code := 400; detail := "Analysis not completed yet" |}, t6_world).
Proof.
  refine (proj1 (proj2 (accepted_job_reads_as_processing simple_deployment
                          t6_submission empty_world t6_reply t6_task t6_world _))).
  reflexivity.
Defined.

(** ** Listing and health *)

(** X15. [list_analyses] lists every job of the registry once, by its
    identifier, with the status, progress and message of its entry (the
    report is not part of the list), counts them, and changes nothing. *)
Theorem list_analyses_lists_every_job_once (w : World) :
  exists analyses,
    list_analyses w = (inr (analyses, length analyses), w) /\
    length analyses = size (analysis_status w) /\
    NoDup (AnalysisSummary.project_id <$> analyses) /\
    (forall a, In a analyses <->
       exists st, analysis_status w !! AnalysisSummary.project_id a = Some st /\
                  a = summary_of (AnalysisSummary.project_id a, st)).
Proof.
  eexists. split; [reflexivity |]. split; [| split].
  - by rewrite length_fmap, length_map_to_list.
  - rewrite <- list_fmap_compose.
    replace (AnalysisSummary.project_id ∘ summary_of) with
      (fst : string * AnalysisStatus.t -> string) by done.
    apply NoDup_fst_map_to_list.
  - intros a. rewrite <- list_elem_of_In, list_elem_of_fmap. split.
    + intros ([pid st] & -> & Hin). apply elem_of_map_to_list in Hin.
      exists st. by split.
    + intros (st & Hst & Ha). exists (AnalysisSummary.project_id a, st).
      split; [done |]. by apply elem_of_map_to_list.
Qed.

(** X16. [health_check] reports "healthy" exactly when the temp directory
    and the upload directory both exist, and "warning" otherwise; neither
    a missing analyzer nor a missing log directory makes it a warning. It
    counts the jobs of the registry and changes nothing. *)
Theorem health_depends_on_the_two_directories (E : Env) (P : Platform) (w : World) :
  exists r,
    health_check E P w = (inr r, w) /\
    (HealthReply.status r = "healthy" <->
     os_path_exists w (TEMP_DIR E) = true /\
     os_path_exists w (UPLOAD_DIR E) = true) /\
    (HealthReply.status r = "healthy" \/ HealthReply.status r = "warning") /\
    HealthChecks.active_analyses (HealthReply.checks r) = size (analysis_status w) /\
    HealthChecks.analyzer_available (HealthReply.checks r) = ANALYZER_AVAILABLE E.
Proof.
  eexists. split; [reflexivity |]. cbn.
  destruct (os_path_exists w (TEMP_DIR E)), (os_path_exists w (UPLOAD_DIR E));
    cbn; repeat split; auto; try done; by intros [??].
Qed.


(** ** Uploads *)

(** X17. An accepted upload had a file name that is not empty and whose
    extension, in lower case, is one of .mp4, .avi, .mov, .mkv, .webm. The
    file is stored in the upload directory under "<uuid4 hex>_<name>";
    the reply tells that name, the path and the number of bytes received.
    One path is added to the files, and the registry is not touched. *)
Theorem accepted_upload_is_stored_under_its_name
    (E : Env) (P : Platform) (file : UploadFile.t) (w : World)
    (reply : UploadReply.t) (w' : World) :
  upload_video E P file w = (inr reply, w') ->
  exists name,
    UploadFile.filename file = Some name /\
    name <> "" /\
    In (lower P (snd (splitext P name))) allowed_extensions /\
    UploadReply.filename reply = uuid4_hex E +:+ "_" +:+ name /\
    UploadReply.file_path reply =
      join E (UPLOAD_DIR E) (UploadReply.filename reply) /\
    UploadReply.file_size reply = length (UploadFile.file file) /\
    files w' = {[UploadReply.file_path reply]} ∪ files w /\
    analysis_status w' = analysis_status w.
Proof.
  unfold upload_video. destruct (UploadFile.filename file) as [name |]; [| done].
  destruct (String.eqb_spec name "") as [| Hname]; [done |].
  destruct (existsb _ allowed_extensions) eqn:Hext; [| done]. cbn [negb].
  destruct (open_fault E _); [done |]. intros [= <- <-].
  exists name. repeat split; try done.
  apply existsb_exists in Hext as (ext & Hin & Heq).
  by apply String.eqb_eq in Heq as ->.
Qed.

Lemma accepted_upload_is_stored_under_its_name_witness :
  upload_video simple_deployment posix_platform talk_upload empty_world =
    (inr talk_upload_reply, talk_uploaded_world) /\
  files talk_uploaded_world =
    {[UploadReply.file_path talk_upload_reply]} ∪ files empty_world.
Proof.
  assert (upload_video simple_deployment posix_platform talk_upload empty_world =
          (inr talk_upload_reply, talk_uploaded_world)) as Hupload by reflexivity.
  split; [exact Hupload |].
  destruct (accepted_upload_is_stored_under_its_name _ _ _ _ _ _ Hupload)
    as (name & _ & _ & _ & _ & _ & _ & Hfiles & _).
  exact Hfiles.
Defined.

(** X18. An upload refused with 400 had no file name, an empty one, or an
    extension that, in lower case, is none of the five allowed; nothing is
    stored and nothing changes. *)
Theorem refused_upload_stores_nothing
    (E : Env) (P : Platform) (file : UploadFile.t) (w : World)
    (e : HTTPException) (w' : World) :
  upload_video E P file w = (inl e, w') ->
  status_code e = 400 ->
  w' = w /\
  (UploadFile.filename file = None \/
   UploadFile.filename file = Some "" \/
   exists name, UploadFile.filename file = Some name /\
                ~ In (lower P (snd (splitext P name))) allowed_extensions).
Proof.
  unfold upload_video. destruct (UploadFile.filename file) as [name |].
  - destruct (String.eqb_spec name "") as [-> | Hname].
    { intros [= <- <-] _. auto. }
    destruct (existsb _ allowed_extensions) eqn:Hext; cbn [negb].
    + destruct (open_fault E _); [| done]. by intros [= <- <-].
    + intros [= <- <-] _. split; [done |]. right. right. exists name.
      split; [done |]. intros Hin.
      assert (existsb (String.eqb (lower P (snd (splitext P name))))
                allowed_extensions = true) as Htrue; [| congruence].
      apply existsb_exists. eexists. split; [exact Hin | apply String.eqb_refl].
  - intros [= <- <-] _. auto.
Qed.

Lemma refused_upload_stores_nothing_witness :
  snd (upload_video simple_deployment posix_platform
         {| UploadFile.filename := Some "notes.txt"; UploadFile.file := [] |}
         empty_world) = empty_world.
Proof.
  destruct (upload_video simple_deployment posix_platform
              {| UploadFile.filename := Some "notes.txt"; UploadFile.file := [] |}
              empty_world) as [[e | reply] w'] eqn:Hupload;
    [| vm_compute in Hupload; discriminate].
  refine (proj1 (refused_upload_stores_nothing _ _ _ _ _ _ Hupload _)).
  vm_compute in Hupload. by injection Hupload as <- <-.
Defined.

Lemma upload_adds_its_path
    (E : Env) (P : Platform) (file : UploadFile.t) (w : World)
    (reply : UploadReply.t) (w' : World) :
  upload_video E P file w = (inr reply, w') ->
  UploadReply.file_path reply =
    join E (UPLOAD_DIR E) (UploadReply.filename reply) /\
  files w' = {[UploadReply.file_path reply]} ∪ files w.
Proof.
  unfold upload_video. destruct (UploadFile.filename file) as [name |]; [| done].
  destruct (String.eqb name ""); [done |].
  destruct (existsb _ allowed_extensions); [| done]. cbn [negb].
  destruct (open_fault E _); [done |]. by intros [= <- <-].
Qed.

(** X19. What was uploaded can be analysed: a submission by path that
    gives the file name of an upload's reply is accepted (when the
    analyzer is there and that name is a relative path), and its run is
    started on a file that exists. *)
Theorem uploaded_file_is_found_by_its_name
    (E : Env) (P : Platform) (file : UploadFile.t) (w : World)
    (reply : UploadReply.t) (w' : World) (project_id : string) :
  upload_video E P file w = (inr reply, w') ->
  ANALYZER_AVAILABLE E = true ->
  isabs E (UploadReply.filename reply) = false ->
  UploadReply.file_path reply <> "" ->
  exists answer video_path w'',
    analyze_from_file E
      {| DirectAnalysisRequest.project_id := project_id;
         DirectAnalysisRequest.video_path := UploadReply.filename reply |} w' =
    (inr (answer, FileTask project_id video_path), w'') /\
    os_path_exists w' video_path = true.
Proof.
  intros Hupload Havail Hrel Hpath.
  destruct (upload_adds_its_path _ _ _ _ _ _ Hupload) as [Hfile_path Hfiles].
  assert (os_path_exists w' (join E (UPLOAD_DIR E) (UploadReply.filename reply))
          = true) as Hstored.
  { unfold os_path_exists. rewrite <- Hfile_path.
    apply andb_true_intro. split.
    - apply negb_true_iff, String.eqb_neq, Hpath.
    - apply bool_decide_eq_true. rewrite Hfiles. set_solver. }
  unfold analyze_from_file, resolve_video_path. rewrite Havail. cbn.
  rewrite Hrel. cbn.
  destruct (os_path_exists w' (UploadReply.filename reply)) eqn:Hverbatim.
  - assert (String.eqb (UploadReply.filename reply) "" = false) as ->.
    { unfold os_path_exists in Hverbatim.
      apply andb_prop in Hverbatim as [Hne _]. by apply negb_true_iff in Hne. }
    rewrite Hverbatim. cbn. eauto.
  - rewrite Hstored.
    assert (String.eqb (join E (UPLOAD_DIR E) (UploadReply.filename reply)) ""
            = false) as ->.
    { rewrite <- Hfile_path. by apply String.eqb_neq. }
    rewrite Hstored. cbn. eauto.
Qed.

Lemma uploaded_file_is_found_by_its_name_witness :
  exists answer video_path w'',
    analyze_from_file simple_deployment
      {| DirectAnalysisRequest.project_id := "t7";
         DirectAnalysisRequest.video_path :=
           "3f2a9c51d0b84e76a1c2d3e4f5a6b7c8_Talk.MP4" |} talk_uploaded_world =
    (inr (answer, FileTask "t7" video_path), w'') /\
    os_path_exists talk_uploaded_world video_path = true.
Proof.
  apply (uploaded_file_is_found_by_its_name simple_deployment posix_platform
           talk_upload empty_world talk_upload_reply talk_uploaded_world "t7");
    [reflexivity | reflexivity | reflexivity | discriminate].
Defined.


(** ** More on the translator *)

Lemma convert_action_shape E action_data a :
  convert_action E action_data = inr a ->
  exists name period_list,
    subscript action_data "action_name" = inr name /\
    validate_str E name = Some (DetectedAction.action_name a) /\
    subscript action_data "periods" ≫= iterate = inr period_list /\
    Forall2 (fun period_data period => convert_period E period_data = inr period)
      period_list (DetectedAction.periods a).
Proof.
  unfold convert_action, ActionSummary_init, DetectedAction_init.
  intros H. cbn -[mapM] in *.
  destruct (subscript action_data "periods") as [| raw_periods]; [done |].
  cbn -[mapM] in *.
  destruct (iterate raw_periods) as [| period_list]; [done |].
  cbn -[mapM] in *.
  destruct (mapM (convert_period E) period_list) as [| periods] eqn:Hps; [done |].
  apply mapM_inr in Hps. cbn -[mapM] in *.
  destruct (subscript action_data "summary") as [| raw_summary]; [done |].
  cbn -[mapM] in *.
  destruct (subscript raw_summary "total_duration_seconds") as [| tds]; [done |].
  cbn -[mapM] in *.
  destruct (subscript raw_summary "occurrence_count") as [| oc]; [done |].
  cbn -[mapM] in *.
  destruct (validate_float E tds); [| done].
  destruct (validate_int E oc) as [n |]; [| done].
  cbn -[mapM] in *.
  destruct (subscript action_data "action_name") as [| name]; [done |].
  cbn -[mapM] in *.
  destruct (validate_str E name) as [s |] eqn:Hname; [| done].
  inversion H; subst. cbn. by exists name, period_list.
Qed.

(** X20. A report mirrors the analyzer's output: it carries the project
    identifier it was translated for and the analyzer's total of bad
    postures, and it has one action per entry of "detected_actions", in the
    analyzer's order, each with the analyzer's action name and one period
    per element of the analyzer's "periods", in order. *)
Theorem report_mirrors_the_analyzer_output
    (E : Env) (project_id : string) (analysis_result : PyVal)
    (r : PostureEventResponse.t) :
  convert_to_api_format E project_id analysis_result = inr r ->
  PostureEventResponse.project_id r = project_id /\
  (exists total,
     subscript analysis_result "summary" ≫=
       (fun raw_summary => subscript raw_summary "total_bad_postures") = inr total /\
     validate_int E total = Some (PostureEventResponse.total_bad_postures r)) /\
  exists action_items,
    subscript analysis_result "detected_actions" ≫= dict_items = inr action_items /\
    length (PostureEventResponse.detected_actions r) = length action_items /\
    Forall2
      (fun kv a =>
         exists name period_list,
           subscript kv.2 "action_name" = inr name /\
           validate_str E name = Some (DetectedAction.action_name a) /\
           subscript kv.2 "periods" ≫= iterate = inr period_list /\
           Forall2 (fun period_data period =>
                      convert_period E period_data = inr period)
             period_list (DetectedAction.periods a))
      action_items (PostureEventResponse.detected_actions r).
Proof.
  intros Hconv.
  destruct (convert_to_api_format_actions _ _ _ _ Hconv) as (items & Hitems & Hall).
  assert (PostureEventResponse.project_id r = project_id /\
          exists total,
            subscript analysis_result "summary" ≫=
              (fun raw_summary => subscript raw_summary "total_bad_postures") =
              inr total /\
            validate_int E total = Some (PostureEventResponse.total_bad_postures r))
    as [Hid Htotal].
  { revert Hconv. unfold convert_to_api_format, PostureEventResponse_init.
    cbn -[mapM].
    destruct (subscript analysis_result "summary") as [| raw_summary]; [done |].
    cbn -[mapM].
    destruct (subscript raw_summary "total_bad_postures") as [| tbp]; [done |].
    cbn -[mapM].
    destruct (subscript raw_summary "total_duration_seconds") as [| tds]; [done |].
    cbn -[mapM].
    destruct (subscript analysis_result "detected_actions") as [| acts]; [done |].
    cbn -[mapM]. destruct (dict_items acts) as [| its]; [done |]. cbn -[mapM].
    destruct (mapM _ its); [done |]. cbn -[mapM].
    destruct (validate_int E tbp) as [n |] eqn:Hn; [| done].
    destruct (validate_float E tds); [| done]. intros [= <-].
    split; [done | by exists tbp]. }
  split; [done |]. split; [done |].
  - exists items. split; [done |]. split.
    + symmetry. by eapply Forall2_length.
    + eapply Forall2_impl; [exact Hall |]. intros kv a. apply convert_action_shape.
Qed.

Lemma report_mirrors_the_analyzer_output_witness :
  exists r,
    convert_to_api_format simple_deployment "t2" (slouching_output 2) = inr r /\
    PostureEventResponse.project_id r = "t2".
Proof.
  destruct (convert_to_api_format simple_deployment "t2" (slouching_output 2))
    as [| r] eqn:Hconv; [vm_compute in Hconv; discriminate |].
  exists r. split; [reflexivity |].
  exact (proj1 (report_mirrors_the_analyzer_output _ _ _ _ Hconv)).
Defined.

Lemma mapM_snd {A} (f : PyVal -> PyExc + A) (items : list (string * PyVal)) :
  mapM (fun kv => f kv.2) items = mapM f (items.*2).
Proof.
  induction items as [| kv items IH]; [done |].
  cbn. destruct (f kv.2); [done |]. cbn. cbn in IH. by rewrite IH.
Qed.

(** X21. The keys under which the analyzer files its actions do not reach
    the report, nor does anything of the output besides its summary and the
    sequence of its actions: two outputs with the same "summary" and the
    same actions in the same order translate alike, to the same report or
    the same exception. *)
Theorem translation_ignores_the_action_keys
    (E : Env) (project_id : string) (analysis_result analysis_result' : PyVal)
    (action_items action_items' : list (string * PyVal)) :
  subscript analysis_result "summary" = subscript analysis_result' "summary" ->
  subscript analysis_result "detected_actions" = inr (PyDict action_items) ->
  subscript analysis_result' "detected_actions" = inr (PyDict action_items') ->
  action_items.*2 = action_items'.*2 ->
  convert_to_api_format E project_id analysis_result =
  convert_to_api_format E project_id analysis_result'.
Proof.
  intros Hsummary Hactions Hactions' Hsame. unfold convert_to_api_format.
  rewrite Hsummary, Hactions, Hactions'. cbn -[mapM].
  destruct (subscript analysis_result' "summary") as [| raw_summary]; [done |].
  cbn -[mapM].
  destruct (subscript raw_summary "total_bad_postures"); [done |]. cbn -[mapM].
  destruct (subscript raw_summary "total_duration_seconds"); [done |].
  cbn -[mapM].
  by rewrite (mapM_snd (convert_action E)), (mapM_snd (convert_action E)), Hsame.
Qed.

Lemma translation_ignores_the_action_keys_witness :
  convert_to_api_format simple_deployment "t2" (slouching_output 2) =
  convert_to_api_format simple_deployment "t2"
    (PyDict
       [("detected_actions",
         PyDict [("bad_posture_1",
                  PyDict
                    [("action_name", PyStr "slouching");
                     ("periods", slouching_periods);
                     ("summary",
                      PyDict [("total_duration_seconds",
                               PyFloat (Float64 0x4016000000000000));
                              ("occurrence_count", PyInt 2)])])]);
        ("summary",
         PyDict [("total_bad_postures", PyInt 2);
                 ("total_duration_seconds",
                  PyFloat (Float64 0x4016000000000000))]);
        ("fps", PyInt 30)]).
Proof.
  eapply translation_ignores_the_action_keys; reflexivity.
Defined.

Lemma mapM_all_inr {A B} (f : A -> PyExc + B) (l : list A) :
  Forall (fun x => exists y, f x = inr y) l -> exists ys, mapM f l = inr ys.
Proof.
  induction 1 as [| x l [y Hy] _ [ys Hys]]; [by exists [] |].
  exists (y :: ys). cbn. rewrite Hy. cbn. cbn in Hys. by rewrite Hys.
Qed.

Lemma field_is_inr check v key :
  field_is check v key = true -> exists x, subscript v key = inr x /\ check x = true.
Proof. unfold field_is. destruct (subscript v key) as [| x]; [done |]. eauto. Qed.

Lemma is_int_validates E v : is_int v = true -> exists n, validate_int E v = Some n.
Proof. destruct v; try done. eauto. Qed.

Lemma is_float_validates E v :
  is_float v = true -> exists x, validate_float E v = Some x.
Proof. destruct v; try done. eauto. Qed.

Lemma is_str_validates E v : is_str v = true -> exists s, validate_str E v = Some s.
Proof. destruct v; try done. eauto. Qed.

Ltac field H :=
  let x := fresh "x" in
  let Hx := fresh "Hx" in
  let Hc := fresh "Hc" in
  apply field_is_inr in H as (x & Hx & Hc); rewrite ?Hx; cbn -[mapM].

Lemma period_conforms_converts E period_data :
  period_conforms period_data = true ->
  exists period, convert_period E period_data = inr period.
Proof.
  unfold period_conforms, convert_period, ActionPeriod_init.
  intros [[[H1 H2]%andb_prop H3]%andb_prop H4]%andb_prop.
  field H1. field H2. field H3. field H4.
  apply (is_int_validates E) in Hc as [? ->].
  apply (is_int_validates E) in Hc0 as [? ->].
  apply (is_int_validates E) in Hc1 as [? ->].
  apply (is_float_validates E) in Hc2 as [? ->]. eauto.
Qed.

Lemma action_conforms_converts E action_data :
  action_conforms action_data = true ->
  exists a, convert_action E action_data = inr a.
Proof.
  unfold action_conforms, summary_conforms, convert_action, ActionSummary_init,
    DetectedAction_init.
  intros [[Hperiods Hsummary]%andb_prop Hname]%andb_prop.
  destruct (subscript action_data "periods") as [| [| | | | | period_list |]];
    try done.
  cbn -[mapM].
  destruct (mapM_all_inr (convert_period E) period_list) as [periods ->].
  { apply List.Forall_forall. intros period Hin. apply period_conforms_converts.
    rewrite forallb_forall in Hperiods. auto. }
  cbn -[mapM].
  destruct (subscript action_data "summary") as [| raw_summary]; [done |].
  apply andb_prop in Hsummary as [Htds Hoc]. cbn -[mapM].
  field Htds. field Hoc. field Hname.
  apply (is_float_validates E) in Hc as [? ->].
  apply (is_int_validates E) in Hc0 as [? ->].
  apply (is_str_validates E) in Hc1 as [? ->]. eauto.
Qed.

(** X22. The translation of an analyzer output that conforms to the schema
    never fails: when the output has a summary with an integer total and a
    float duration, and a dictionary of actions each with a string name, a
    list of periods of three integers and a float, and a summary of a float
    and an integer, the translator returns a report, whatever pydantic
    makes of values of other types. *)
Theorem conforming_output_always_translates
    (E : Env) (project_id : string) (analysis_result : PyVal) :
  output_conforms analysis_result = true ->
  exists r, convert_to_api_format E project_id analysis_result = inr r.
Proof.
  unfold output_conforms, convert_to_api_format, PostureEventResponse_init.
  intros [Hsummary Hactions]%andb_prop.
  destruct (subscript analysis_result "summary") as [| raw_summary]; [done |].
  apply andb_prop in Hsummary as [Htotal Hduration]. cbn -[mapM].
  field Htotal. field Hduration.
  destruct (subscript analysis_result "detected_actions")
    as [| [| | | | | | action_items]]; try done.
  cbn -[mapM].
  destruct (mapM_all_inr (fun kv => convert_action E kv.2) action_items)
    as [actions ->].
  { apply List.Forall_forall. intros kv Hin. apply action_conforms_converts.
    rewrite forallb_forall in Hactions. auto. }
  cbn -[mapM].
  apply (is_int_validates E) in Hc as [? ->].
  apply (is_float_validates E) in Hc0 as [? ->]. eauto.
Qed.

Lemma conforming_output_always_translates_witness :
  exists r, convert_to_api_format simple_deployment "t2" (slouching_output 2) = inr r.
Proof.
  apply (conforming_output_always_translates simple_deployment "t2"
           (slouching_output 2)).
  reflexivity.
Defined.
